(** * PhotoPerfect AI: the enhancement dispatch and fallback core of [app.py]

    A shallow embedding of [ImageEnhancer] ([__init__], [load_models],
    [enhance_image], [_advanced_face_enhancement]) and of the module constant
    [MODEL_PATHS].

    The class mutates [self] and reports through [logger] and [st.error], so
    its methods are written in a small state-and-exception monad over a
    [World] (the object's attributes plus the trace of what the process did).
    An attribute assignment made before an exception is raised is kept, as in
    Python: there is no roll-back when a [try] block is left through its
    handler.

    Everything the class calls but does not define (OpenCV, NumPy, rembg,
    GFPGAN, Real-ESRGAN, the file system) is an interface: the class
    [Externals] for the image libraries and the record [LoadEnv] for what
    loading a backend meets at the time of a call. *)

From Stdlib Require Import ZArith List String Bool Lia.
From Stdlib Require Import Floats.
Import ListNotations.

Set Warnings "-inexact-float".

Local Open Scope string_scope.
Local Open Scope Z_scope.

(** ** Python values *)

(** Exceptions, all of them subclasses of [Exception] (the only thing the two
    handlers of the class catch).  [str_exn] is [str(e)]. *)
Inductive exn : Type :=
| FileNotFoundError (msg : string)
| ImportError (msg : string)
| ValueError (msg : string)
| KeyError (msg : string)
| RuntimeError (msg : string).

Definition str_exn (e : exn) : string :=
  match e with
  | FileNotFoundError m | ImportError m | ValueError m
  | KeyError m | RuntimeError m => m
  end.

(** What evaluating an expression or running a statement ends in. *)
Inductive outcome (A : Type) : Type :=
| Returned (a : A)
| Raised (e : exn).
Arguments Returned {A} a.
Arguments Raised {A} e.

(** [float(z)] for a Python [int]: the nearest binary64, ties to even. *)
Definition float_of_Z (z : Z) : float :=
  SF2Prim (SpecFloat.binary_normalize 53 1024 z 0 false).

(** [a / b] on two [int]s (true division).  Both operands are converted and
    divided in binary64, which is the correctly rounded quotient Python
    returns whenever both are below [2^53] in absolute value. *)
Definition int_truediv (a b : Z) : float :=
  PrimFloat.div (float_of_Z a) (float_of_Z b).

(** The builtin [min(a, b)] on floats: [b] replaces [a] only when [b < a]. *)
Definition py_min (a b : float) : float :=
  if PrimFloat.ltb b a then b else a.

(** ** The objects of the class *)

Inductive device : Type := cuda | cpu.

(** [GFPGANer(model_path=..., upscale=..., arch=..., channel_multiplier=...,
    device=...)]: the handle keeps what it was built with. *)
Record GFPGANer : Type := {
  gfpgan_model_path : string;
  gfpgan_upscale : nat;
  gfpgan_arch : string;
  gfpgan_channel_multiplier : nat;
  gfpgan_device : device
}.

Record RRDBNet : Type := {
  num_in_ch : nat;
  num_out_ch : nat;
  num_feat : nat;
  num_block : nat;
  num_grow_ch : nat;
  rrdb_scale : nat
}.

Record RealESRGANer : Type := {
  esrgan_scale : nat;
  esrgan_model_path : string;
  esrgan_model : RRDBNet;
  esrgan_device : device
}.

(** The attributes [__init__] creates. *)
Record ImageEnhancer : Type := {
  gfpgan_model : option GFPGANer;
  upsampler : option RealESRGANer;
  self_device : device;
  models_loaded : bool
}.

(** What the process did that a user or an operator can observe. *)
Inductive event : Type :=
| EvPathExists (path : string) (answer : bool)
| EvImport (module : string)
| EvConstruct (class : string)
| EvLoggerInfo (msg : string)
| EvLoggerError (msg : string)
| EvStError (msg : string).

Record World : Type := {
  self : ImageEnhancer;
  trace : list event
}.

(** ** The monad of methods *)

(** A computation over a mutable state [S] that returns or raises.  The state
    reached when an exception is raised is kept. *)
Definition St (S A : Type) : Type := S -> outcome A * S.

Definition ret {S A} (a : A) : St S A := fun s => (Returned a, s).

Definition bind {S A B} (m : St S A) (k : A -> St S B) : St S B :=
  fun s =>
    match m s with
    | (Returned a, s') => k a s'
    | (Raised e, s') => (Raised e, s')
    end.

Definition raise {S A} (e : exn) : St S A := fun s => (Raised e, s).

(** [try: body  except Exception as e: handler(e)]. *)
Definition try_except {S A} (body : St S A) (handler : exn -> St S A) : St S A :=
  fun s =>
    match body s with
    | (Returned a, s') => (Returned a, s')
    | (Raised e, s') => handler e s'
    end.

(** An external call whose result does not depend on the state. *)
Definition lift {S A} (o : outcome A) : St S A := fun s => (o, s).

(** Methods without reassigned locals run over the [World]. *)
Definition M (A : Type) : Type := St World A.

Definition emit (ev : event) : M unit :=
  fun w => (Returned tt, {| self := self w; trace := trace w ++ [ev] |}).

Definition get_self : M ImageEnhancer := fun w => (Returned (self w), w).

Definition modify_self (f : ImageEnhancer -> ImageEnhancer) : M unit :=
  fun w => (Returned tt, {| self := f (self w); trace := trace w |}).

Declare Scope py_scope.
Delimit Scope py_scope with py.
Notation "x <- m ;; k" := (bind m (fun x => k))
  (at level 61, m at next level, right associativity) : py_scope.
Notation "m ;;; k" := (bind m (fun _ => k))
  (at level 61, right associativity) : py_scope.
Local Open Scope py_scope.

(** [for x in xs: body(x)]: the first exception ends the loop. *)
Fixpoint for_each {A} (xs : list A) (body : A -> M unit) : M unit :=
  match xs with
  | [] => ret tt
  | x :: rest => body x ;;; for_each rest body
  end.

(** Attribute assignments. *)
Definition set_gfpgan_model (g : GFPGANer) : M unit :=
  modify_self (fun s =>
    {| gfpgan_model := Some g; upsampler := upsampler s;
       self_device := self_device s; models_loaded := models_loaded s |}).

Definition set_upsampler (u : RealESRGANer) : M unit :=
  modify_self (fun s =>
    {| gfpgan_model := gfpgan_model s; upsampler := Some u;
       self_device := self_device s; models_loaded := models_loaded s |}).

Definition set_models_loaded (b : bool) : M unit :=
  modify_self (fun s =>
    {| gfpgan_model := gfpgan_model s; upsampler := upsampler s;
       self_device := self_device s; models_loaded := b |}).

(** ** [MODEL_PATHS] and [load_models] *)

(** The dict literal, in insertion order (the order [items()] yields). *)
Definition MODEL_PATHS : list (string * string) :=
  [ ("GFPGAN", "GFPGANv1.4.pth");
    ("RealESRGAN", "RealESRGAN_x4plus.pth") ].

(** [d[key]]. *)
Fixpoint dict_getitem (d : list (string * string)) (key : string)
  : outcome string :=
  match d with
  | [] => Raised (KeyError key)
  | (k, v) :: rest => if String.eqb k key then Returned v else dict_getitem rest key
  end.

(** What a call of [load_models] meets outside the object: the file system
    and the three libraries it imports and instantiates.  [None] means the
    import or the constructor completes. *)
Record LoadEnv : Type := {
  os_path_exists : string -> bool;
  import_fails : string -> option exn;
  GFPGANer_fails : GFPGANer -> option exn;
  RRDBNet_fails : RRDBNet -> option exn;
  RealESRGANer_fails : RealESRGANer -> option exn
}.

Definition may_fail (o : option exn) : M unit :=
  match o with
  | None => ret tt
  | Some e => raise e
  end.

Definition path_exists (env : LoadEnv) (path : string) : M bool :=
  let b := os_path_exists env path in
  emit (EvPathExists path b) ;;; ret b.

Definition import_module (env : LoadEnv) (module : string) : M unit :=
  emit (EvImport module) ;;; may_fail (import_fails env module).

Definition new_GFPGANer (env : LoadEnv) (g : GFPGANer) : M GFPGANer :=
  emit (EvConstruct "GFPGANer") ;;; may_fail (GFPGANer_fails env g) ;;; ret g.

Definition new_RRDBNet (env : LoadEnv) (n : RRDBNet) : M RRDBNet :=
  emit (EvConstruct "RRDBNet") ;;; may_fail (RRDBNet_fails env n) ;;; ret n.

Definition new_RealESRGANer (env : LoadEnv) (u : RealESRGANer) : M RealESRGANer :=
  emit (EvConstruct "RealESRGANer") ;;; may_fail (RealESRGANer_fails env u) ;;; ret u.

Definition logger_info (msg : string) : M unit := emit (EvLoggerInfo msg).
Definition logger_error (msg : string) : M unit := emit (EvLoggerError msg).
Definition st_error (msg : string) : M unit := emit (EvStError msg).

(** [ImageEnhancer.__init__]; the argument is [torch.cuda.is_available()]. *)
Definition init (cuda_is_available : bool) : World :=
  {| self := {| gfpgan_model := None;
                upsampler := None;
                self_device := if cuda_is_available then cuda else cpu;
                models_loaded := false |};
     trace := [] |}.

(** The body of the [try] block of [load_models]. *)
Definition load_models_body (env : LoadEnv) : M unit :=
  (* Verify model files exist *)
  for_each MODEL_PATHS (fun item =>
    let '(model_name, path) := item in
    found <- path_exists env path ;;
    if negb found
    then raise (FileNotFoundError (model_name ++ " model not found at " ++ path))
    else ret tt) ;;;
  (* Load GFPGAN for face enhancement *)
  import_module env "gfpgan" ;;;
  s <- get_self ;;
  gfpgan_path <- lift (dict_getitem MODEL_PATHS "GFPGAN") ;;
  g <- new_GFPGANer env
         {| gfpgan_model_path := gfpgan_path;
            gfpgan_upscale := 2;
            gfpgan_arch := "clean";
            gfpgan_channel_multiplier := 2;
            gfpgan_device := self_device s |} ;;
  set_gfpgan_model g ;;;
  (* Load RealESRGAN for super resolution *)
  import_module env "basicsr.archs.rrdbnet_arch" ;;;
  import_module env "realesrgan" ;;;
  model <- new_RRDBNet env
         {| num_in_ch := 3; num_out_ch := 3; num_feat := 64;
            num_block := 23; num_grow_ch := 32; rrdb_scale := 4 |} ;;
  s <- get_self ;;
  esrgan_path <- lift (dict_getitem MODEL_PATHS "RealESRGAN") ;;
  u <- new_RealESRGANer env
         {| esrgan_scale := 4;
            esrgan_model_path := esrgan_path;
            esrgan_model := model;
            esrgan_device := self_device s |} ;;
  set_upsampler u ;;;
  set_models_loaded true ;;;
  logger_info "AI models loaded successfully".

Definition load_models (env : LoadEnv) : M unit :=
  s <- get_self ;;
  if models_loaded s then ret tt
  else
    try_except (load_models_body env)
      (fun e =>
         logger_error ("Model loading failed: " ++ str_exn e) ;;;
         st_error ("Model loading failed: " ++ str_exn e)).

(** ** The image libraries *)

Inductive ColorConversionCode : Type :=
| COLOR_RGB2BGR | COLOR_BGR2RGB | COLOR_RGB2LAB | COLOR_LAB2RGB.

Inductive InterpolationFlags : Type :=
| INTER_NEAREST | INTER_LINEAR | INTER_CUBIC | INTER_AREA | INTER_LANCZOS4.

Inductive dtype : Type := np_uint8 | np_float32.

(** [cv2.createCLAHE(clipLimit=..., tileGridSize=...)]. *)
Record CLAHE : Type := {
  clipLimit : float;
  tileGridSize : nat * nat
}.

Definition createCLAHE (clip : float) (tiles : nat * nat) : CLAHE :=
  {| clipLimit := clip; tileGridSize := tiles |}.

(** NumPy, OpenCV, rembg and the two backends, as the class calls them.  Each
    call returns or raises; none of them touches the object. *)
Class Externals : Type := {
  ndarray : Type;
  shape : ndarray -> list nat;
  (* numpy: a.astype(t), a / x, a * k, a.clip(lo, hi) *)
  astype : ndarray -> dtype -> outcome ndarray;
  truediv : ndarray -> float -> outcome ndarray;
  mul : ndarray -> Z -> outcome ndarray;
  clip : ndarray -> Z -> Z -> outcome ndarray;
  (* cv2 *)
  cvtColor : ndarray -> ColorConversionCode -> outcome ndarray;
  resize : ndarray -> nat * nat -> InterpolationFlags -> outcome ndarray;
  fastNlMeansDenoisingColored : ndarray -> Z -> Z -> Z -> Z -> outcome ndarray;
  filter2D : ndarray -> Z -> list (list Z) -> outcome ndarray;
  split : ndarray -> outcome (list ndarray);
  merge : list ndarray -> outcome ndarray;
  CLAHE_apply : CLAHE -> ndarray -> outcome ndarray;
  bilateralFilter : ndarray -> Z -> Z -> Z -> outcome ndarray;
  (* rembg *)
  remove : ndarray -> outcome ndarray;
  (* gfpgan_model.enhance(img, has_aligned, only_center_face, paste_back,
     weight) returns (cropped_faces, restored_faces, restored_img) *)
  GFPGANer_enhance :
    GFPGANer -> ndarray -> bool -> bool -> bool -> float ->
    outcome (list ndarray * list ndarray * ndarray);
  (* upsampler.enhance(img, outscale) returns (output, img_mode) *)
  RealESRGANer_enhance :
    RealESRGANer -> ndarray -> Z -> outcome (ndarray * option string)
}.

(** Tuple unpacking: [x, y = t] and [x, y, z = t]. *)
Definition unpack2 {A} (t : list A) : outcome (A * A) :=
  match t with
  | [x; y] => Returned (x, y)
  | [] | [_] => Raised (ValueError "not enough values to unpack")
  | _ => Raised (ValueError "too many values to unpack")
  end.

Definition unpack3 {A} (t : list A) : outcome (A * A * A) :=
  match t with
  | [x; y; z] => Returned (x, y, z)
  | [] | [_] | [_; _] => Raised (ValueError "not enough values to unpack")
  | _ => Raised (ValueError "too many values to unpack")
  end.

(** The kernel literal of [Sharpen] and of the fallback pipeline. *)
Definition sharpen_kernel : list (list Z) :=
  [ [0; -1; 0]; [-1; 5; -1]; [0; -1; 0] ].

(** [min(0.5 + strength/20, 0.9)], the [weight] argument of the neural face
    path. *)
Definition blend_weight (strength : Z) : float :=
  py_min (PrimFloat.add 0.5%float (int_truediv strength 20)) 0.9%float.

(** The six names [enhance_image] compares [enhancement_type] with. *)
Definition SUPER_RESOLUTION : string := "Super Resolution".
Definition FACE_ENHANCEMENT : string := "Face Enhancement".
Definition DENOISE : string := "Denoise".
Definition SHARPEN : string := "Sharpen".
Definition REMOVE_BACKGROUND : string := "Remove Background".
Definition COLOR_CORRECTION : string := "Color Correction".

Definition supported_operations : list string :=
  [ FACE_ENHANCEMENT; SUPER_RESOLUTION; DENOISE; SHARPEN;
    REMOVE_BACKGROUND; COLOR_CORRECTION ].

Section Dispatcher.
Context {E : Externals}.

(** [_advanced_face_enhancement(img_array)]. *)
Definition _advanced_face_enhancement {S} (img_array : ndarray) : St S ndarray :=
  (* Contrast enhancement *)
  lab <- lift (cvtColor img_array COLOR_RGB2LAB) ;;
  planes <- lift (split lab) ;;
  lab3 <- lift (unpack3 planes) ;;
  let '(l, a, b) := lab3 in
  let clahe := createCLAHE 3.0%float (8%nat, 8%nat) in
  cl <- lift (CLAHE_apply clahe l) ;;
  limg <- lift (merge [cl; a; b]) ;;
  output <- lift (cvtColor limg COLOR_LAB2RGB) ;;
  (* Sharpening *)
  let kernel := [ [0; -1; 0]; [-1; 5; -1]; [0; -1; 0] ] in
  output <- lift (filter2D output (-1) kernel) ;;
  (* Noise reduction *)
  output <- lift (bilateralFilter output 9 75 75) ;;
  ret output.

(** The local [img_array] of [enhance_image]: it is reassigned inside the
    [try] block and read by the handler, so it is part of the state the
    block runs over. *)
Record Frame : Type := { img_array : ndarray }.

Definition Body (A : Type) : Type := St (Frame * World) A.

Definition in_world {A} (m : M A) : Body A :=
  fun fw =>
    let '(f, w) := fw in
    let '(o, w') := m w in (o, (f, w')).

Definition get_img_array : Body ndarray :=
  fun fw => (Returned (img_array (fst fw)), fw).

Definition set_img_array (a : ndarray) : Body unit :=
  fun fw => (Returned tt, ({| img_array := a |}, snd fw)).

(** The body of the [try] block of [enhance_image]. *)
Definition enhance_image_body (enhancement_type : string) (strength : Z)
  : Body ndarray :=
  s <- in_world get_self ;;
  if String.eqb enhancement_type "Super Resolution" then
    match upsampler s with
    | Some up =>
        img <- get_img_array ;;
        bgr <- lift (cvtColor img COLOR_RGB2BGR) ;;
        set_img_array bgr ;;;
        img <- get_img_array ;;
        f32 <- lift (astype img np_float32) ;;
        scaled <- lift (truediv f32 255.0%float) ;;
        set_img_array scaled ;;;
        img <- get_img_array ;;
        res <- lift (RealESRGANer_enhance up img 4) ;;
        let '(output, _) := res in
        output <- lift (mul output 255) ;;
        output <- lift (clip output 0 255) ;;
        output <- lift (astype output np_uint8) ;;
        output <- lift (cvtColor output COLOR_BGR2RGB) ;;
        ret output
    | None =>
        img <- get_img_array ;;
        hw <- lift (unpack2 (firstn 2 (shape img))) ;;
        let '(height, width) := hw in
        output <- lift (resize img ((width * 2)%nat, (height * 2)%nat) INTER_CUBIC) ;;
        ret output
    end
  else if String.eqb enhancement_type "Face Enhancement" then
    match gfpgan_model s with
    | Some g =>
        img <- get_img_array ;;
        bgr <- lift (cvtColor img COLOR_RGB2BGR) ;;
        set_img_array bgr ;;;
        img <- get_img_array ;;
        res <- lift (GFPGANer_enhance g img false false true
                       (blend_weight strength)) ;;
        let '(_, _, output) := res in
        output <- lift (cvtColor output COLOR_BGR2RGB) ;;
        ret output
    | None =>
        img <- get_img_array ;;
        _advanced_face_enhancement img
    end
  else if String.eqb enhancement_type "Denoise" then
    img <- get_img_array ;;
    output <- lift (fastNlMeansDenoisingColored img strength strength 7 21) ;;
    ret output
  else if String.eqb enhancement_type "Sharpen" then
    img <- get_img_array ;;
    let kernel := [ [0; -1; 0]; [-1; 5; -1]; [0; -1; 0] ] in
    output <- lift (filter2D img (-1) kernel) ;;
    ret output
  else if String.eqb enhancement_type "Remove Background" then
    img <- get_img_array ;;
    output <- lift (remove img) ;;
    ret output
  else if String.eqb enhancement_type "Color Correction" then
    img <- get_img_array ;;
    lab <- lift (cvtColor img COLOR_RGB2LAB) ;;
    planes <- lift (split lab) ;;
    lab3 <- lift (unpack3 planes) ;;
    let '(l, a, b) := lab3 in
    let clahe := createCLAHE 3.0%float (8%nat, 8%nat) in
    cl <- lift (CLAHE_apply clahe l) ;;
    limg <- lift (merge [cl; a; b]) ;;
    output <- lift (cvtColor limg COLOR_LAB2RGB) ;;
    ret output
  else
    img <- get_img_array ;;
    ret img.

(** The handler of [enhance_image]: log, show, return [img_array]. *)
Definition enhance_image_handler (e : exn) : Body ndarray :=
  in_world (logger_error ("Enhancement failed: " ++ str_exn e)) ;;;
  in_world (st_error ("Enhancement failed: " ++ str_exn e)) ;;;
  img <- get_img_array ;;
  ret img.

(** [enhance_image(image, enhancement_type, strength)] from the pixel array
    on: [image] is the array that [np.array(image)] returned.  The method
    with the conversion and the spinner, both of which run outside the [try]
    block, is [enhance_image_method]. *)
Definition enhance_image (env : LoadEnv) (image : ndarray)
    (enhancement_type : string) (strength : Z) : M ndarray :=
  load_models env ;;;
  fun w =>
    let '(o, (_, w')) :=
      try_except (enhance_image_body enhancement_type strength)
                 enhance_image_handler
                 ({| img_array := image |}, w) in
    (o, w').

End Dispatcher.

(** ** What the libraries are relied on for

    The dispatcher itself decides no pixel: the shape of what it returns is
    the shape of what the library it called returned.  These are the facts
    about the libraries (from their documentation) that shape statements
    rest on.  All but the one for [resize] say nothing when a call raises. *)
Class ExternalsLaws (E : Externals) : Prop := {
  cvtColor_shape : forall a code b,
    cvtColor a code = Returned b -> shape b = shape a;
  split_shape : forall a planes h w c,
    split a = Returned planes -> shape a = [h; w; c] ->
    List.length planes = c /\ Forall (fun p => shape p = [h; w]) planes;
  merge_shape : forall planes a h w,
    merge planes = Returned a ->
    Forall (fun p => shape p = [h; w]) planes ->
    shape a = [h; w; List.length planes];
  CLAHE_apply_shape : forall c a b,
    CLAHE_apply c a = Returned b -> shape b = shape a;
  filter2D_shape : forall a ddepth kernel b,
    filter2D a ddepth kernel = Returned b -> shape b = shape a;
  bilateralFilter_shape : forall a d sc ss b,
    bilateralFilter a d sc ss = Returned b -> shape b = shape a;
  fastNlMeansDenoisingColored_shape : forall a h hc t sw b,
    fastNlMeansDenoisingColored a h hc t sw = Returned b -> shape b = shape a;
  (* resizing a non-empty colour image to a non-empty size succeeds *)
  resize_shape : forall a h w dw dh interp,
    shape a = [h; w; 3%nat] -> (1 <= h)%nat -> (1 <= w)%nat ->
    (1 <= dw)%nat -> (1 <= dh)%nat ->
    exists b, resize a (dw, dh) interp = Returned b /\ shape b = [dh; dw; 3%nat];
  (* with paste_back the restored image is the input scaled by [upscale] *)
  GFPGANer_enhance_shape : forall g a aligned center weight faces restored out h w,
    GFPGANer_enhance g a aligned center true weight = Returned (faces, restored, out) ->
    shape a = [h; w; 3%nat] ->
    shape out = [(h * gfpgan_upscale g)%nat; (w * gfpgan_upscale g)%nat; 3%nat]
}.

(** ** The states an [ImageEnhancer] can be in *)

Section Reachability.
Context {E : Externals}.

Inductive reachable : World -> Prop :=
| reach_init : forall cuda_is_available, reachable (init cuda_is_available)
| reach_load_models : forall env w,
    reachable w -> reachable (snd (load_models env w))
| reach_enhance_image : forall env image enhancement_type strength w,
    reachable w ->
    reachable (snd (enhance_image env image enhancement_type strength w)).

End Reachability.

(** ** The stages the specification names

    The specification describes the classical transforms by stage.  These
    definitions follow its words; the theorems compare them with the code of
    [enhance_image] and [_advanced_face_enhancement]. *)

Definition and_then {A B} (o : outcome A) (k : A -> outcome B) : outcome B :=
  match o with
  | Returned a => k a
  | Raised e => Raised e
  end.

Section Stages.
Context {E : Externals}.

(** Adaptive histogram equalization of the luminance channel only. *)
Definition equalize_luminance (clip : float) (tiles : nat * nat)
    (img : ndarray) : outcome ndarray :=
  and_then (cvtColor img COLOR_RGB2LAB) (fun lab =>
  and_then (split lab) (fun planes =>
  and_then (unpack3 planes) (fun lab3 =>
  let '(l, a, b) := lab3 in
  and_then (CLAHE_apply {| clipLimit := clip; tileGridSize := tiles |} l) (fun cl =>
  and_then (merge [cl; a; b]) (fun limg =>
  cvtColor limg COLOR_LAB2RGB))))).

(** Convolution with a 3x3 kernel given by its centre, its four orthogonal
    neighbours and its four corners. *)
Definition convolve3x3 (centre orthogonal corner : Z) (img : ndarray)
    : outcome ndarray :=
  filter2D img (-1)
    [ [corner; orthogonal; corner];
      [orthogonal; centre; orthogonal];
      [corner; orthogonal; corner] ].

(** Equalize, then sharpen, then smooth. *)
Definition three_stage_pipeline (img : ndarray) : outcome ndarray :=
  and_then (equalize_luminance 3.0%float (8%nat, 8%nat) img) (fun equalized =>
  and_then (convolve3x3 5 (-1) 0 equalized) (fun sharpened =>
  bilateralFilter sharpened 9 75 75)).

(** What the caller of [enhance_image] receives when the transform [o] ran
    inside the [try] block on the untouched local [img]. *)
Definition masked (img : ndarray) (o : outcome ndarray) : outcome ndarray :=
  match o with
  | Returned out => Returned out
  | Raised _ => Returned img
  end.

End Stages.

(** ** Environments a process can run in *)

Module Envs.

(** Both weight files are there and every library imports and builds. *)
Definition all_present : LoadEnv :=
  {| os_path_exists := fun _ => true;
     import_fails := fun _ => None;
     GFPGANer_fails := fun _ => None;
     RRDBNet_fails := fun _ => None;
     RealESRGANer_fails := fun _ => None |}.

(** No weight file was downloaded. *)
Definition no_weights : LoadEnv :=
  {| os_path_exists := fun _ => false;
     import_fails := fun _ => None;
     GFPGANer_fails := fun _ => None;
     RRDBNet_fails := fun _ => None;
     RealESRGANer_fails := fun _ => None |}.

(** Only the face-restoration weights are missing. *)
Definition gfpgan_weights_missing : LoadEnv :=
  {| os_path_exists := fun path => negb (String.eqb path "GFPGANv1.4.pth");
     import_fails := fun _ => None;
     GFPGANer_fails := fun _ => None;
     RRDBNet_fails := fun _ => None;
     RealESRGANer_fails := fun _ => None |}.

(** Both files are there, but the super-resolution weights do not load. *)
Definition realesrgan_unloadable : LoadEnv :=
  {| os_path_exists := fun _ => true;
     import_fails := fun _ => None;
     GFPGANer_fails := fun _ => None;
     RRDBNet_fails := fun _ => None;
     RealESRGANer_fails := fun _ => Some (RuntimeError "invalid checkpoint") |}.

End Envs.

(** ** A small implementation of the image libraries

    Arrays of integer samples in row-major order.  Channel reordering,
    splitting, merging and the shapes of all results are as in the real
    libraries; the filters leave the samples alone and resizing replicates
    pixels.  It is what the dispatcher is run on in the examples. *)

Module Raster.

Record array : Type := { dims : list nat; cells : list Z }.

(** RGB <-> BGR on interleaved samples. *)
Fixpoint swap_first_third (l : list Z) : list Z :=
  match l with
  | c0 :: c1 :: c2 :: rest => c2 :: c1 :: c0 :: swap_first_third rest
  | _ => l
  end.

Fixpoint add_alpha (l : list Z) : list Z :=
  match l with
  | c0 :: c1 :: c2 :: rest => c0 :: c1 :: c2 :: 255 :: add_alpha rest
  | _ => []
  end.

(** Nearest-neighbour resampling of an [h] x [w] x [c] array to [dh] x [dw]. *)
Definition resample (h w c dh dw : nat) (l : list Z) : list Z :=
  flat_map (fun y =>
    flat_map (fun x =>
      map (fun ch => nth (((y * h / dh) * w + x * w / dw) * c + ch)%nat l 0)
          (seq 0 c))
      (seq 0 dw))
    (seq 0 dh).

Definition scaled (a : array) (dh dw : nat) : outcome array :=
  match dims a with
  | [h; w; c] =>
      Returned {| dims := [dh; dw; c]; cells := resample h w c dh dw (cells a) |}
  | _ => Raised (ValueError "expected a three-dimensional array")
  end.

Definition plane (h w c ch : nat) (l : list Z) : array :=
  {| dims := [h; w];
     cells := map (fun i => nth (i * c + ch)%nat l 0) (seq 0 (h * w)) |}.

Definition split_planes (a : array) : outcome (list array) :=
  match dims a with
  | [h; w; c] => Returned (map (fun ch => plane h w c ch (cells a)) (seq 0 c))
  | _ => Raised (ValueError "expected a three-dimensional array")
  end.

Definition merge_planes (planes : list array) : outcome array :=
  match planes with
  | [] => Raised (ValueError "nothing to merge")
  | p :: _ =>
      match dims p with
      | [h; w] =>
          Returned
            {| dims := [h; w; List.length planes];
               cells := flat_map (fun i => map (fun q => nth i (cells q) 0) planes)
                                 (seq 0 (h * w)) |}
      | _ => Raised (ValueError "expected two-dimensional planes")
      end
  end.

Definition convert (a : array) (code : ColorConversionCode) : outcome array :=
  match dims a with
  | [h; w; 3%nat] =>
      match code with
      | COLOR_RGB2BGR | COLOR_BGR2RGB =>
          Returned {| dims := dims a; cells := swap_first_third (cells a) |}
      | COLOR_RGB2LAB | COLOR_LAB2RGB => Returned a
      end
  | _ => Raised (ValueError "expected three channels")
  end.

Definition with_alpha (a : array) : outcome array :=
  match dims a with
  | [h; w; 3%nat] =>
      Returned {| dims := [h; w; 4%nat]; cells := add_alpha (cells a) |}
  | _ => Raised (ValueError "expected three channels")
  end.

(** [face_raises] and [upsampler_raises] say whether inference with the
    corresponding backend raises (out of memory, a driver error, ...). *)
Definition externals (face_raises upsampler_raises : option exn) : Externals :=
  {| ndarray := array;
     shape := dims;
     astype := fun a _ => Returned a;
     truediv := fun a _ => Returned a;
     mul := fun a _ => Returned a;
     clip := fun a lo hi =>
       Returned {| dims := dims a;
                   cells := map (fun v => Z.max lo (Z.min hi v)) (cells a) |};
     cvtColor := convert;
     resize := fun a dsize _ => scaled a (snd dsize) (fst dsize);
     fastNlMeansDenoisingColored := fun a _ _ _ _ => Returned a;
     filter2D := fun a _ _ => Returned a;
     split := split_planes;
     merge := merge_planes;
     CLAHE_apply := fun _ a => Returned a;
     bilateralFilter := fun a _ _ _ => Returned a;
     remove := with_alpha;
     GFPGANer_enhance := fun g a _ _ _ _ =>
       match face_raises with
       | Some e => Raised e
       | None =>
           match dims a with
           | [h; w; c] =>
               and_then (scaled a (h * gfpgan_upscale g) (w * gfpgan_upscale g))
                        (fun out => Returned ([], [], out))
           | _ => Raised (ValueError "expected a three-dimensional array")
           end
       end;
     RealESRGANer_enhance := fun u a outscale =>
       match upsampler_raises with
       | Some e => Raised e
       | None =>
           match dims a with
           | [h; w; c] =>
               and_then (scaled a (h * Z.to_nat outscale) (w * Z.to_nat outscale))
                        (fun out => Returned (out, Some "RGB"))
           | _ => Raised (ValueError "expected a three-dimensional array")
           end
       end |}.

(** One orange pixel, and a 2 x 2 picture. *)
Definition one_pixel : array :=
  {| dims := [1; 1; 3]%nat; cells := [250; 120; 10] |}.

Definition two_by_two : array :=
  {| dims := [2; 2; 3]%nat;
     cells := [ 1; 2; 3;   4; 5; 6;
                7; 8; 9;   10; 11; 12 ] |}.

(** A process in which both backends were loaded on a machine without
    accelerator. *)
Definition loaded : World := snd (load_models Envs.all_present (init false)).

End Raster.

(** ** Predicates used by the statements *)

(** The relation between the three attributes that every reachable object
    satisfies. *)
Definition backends_consistent (s : ImageEnhancer) : Prop :=
  (models_loaded s = true <-> upsampler s <> None) /\
  (upsampler s <> None -> gfpgan_model s <> None).

(** Events of an attempt to load a backend: an import or a constructor. *)
Definition is_load_event (ev : event) : bool :=
  match ev with
  | EvImport _ | EvConstruct _ => true
  | _ => false
  end.

(** Operations whose branch never reads [strength]. *)
Definition strength_blind_operations : list string :=
  [ SHARPEN; SUPER_RESOLUTION; REMOVE_BACKGROUND; COLOR_CORRECTION ].

Section BodyPredicates.
Context {E : Externals}.

(** A block that leaves the object and the trace as they were. *)
Definition keeps_world {A} (m : Body A) : Prop :=
  forall f w, snd (snd (m (f, w))) = w.

End BodyPredicates.

(** ** What the neural super-resolution path relies on

    NumPy's element-wise operations keep the shape, and
    [RealESRGANer.enhance(img, outscale)] returns the input resized to
    [outscale] times its height and width. *)
Class UpsamplerLaws (E : Externals) : Prop := {
  astype_shape : forall a t b, astype a t = Returned b -> shape b = shape a;
  truediv_shape : forall a x b, truediv a x = Returned b -> shape b = shape a;
  mul_shape : forall a k b, mul a k = Returned b -> shape b = shape a;
  clip_shape : forall a lo hi b, clip a lo hi = Returned b -> shape b = shape a;
  RealESRGANer_enhance_shape : forall up a outscale out mode h w,
    RealESRGANer_enhance up a outscale = Returned (out, mode) ->
    shape a = [h; w; 3%nat] ->
    shape out = [(h * Z.to_nat outscale)%nat; (w * Z.to_nat outscale)%nat; 3%nat]
}.

(** ** The page around the enhancer ([main])

    Of [main] only what decides something is modelled: the model status card,
    the name of the downloaded file, and the run from the uploaded file to
    the enhanced image.  Markup, layout and the other widgets are left
    out. *)




(** [c.lower()] on an ASCII character; other bytes are left alone. *)
Definition lower_ascii (c : Ascii.ascii) : Ascii.ascii :=
  let n := Ascii.nat_of_ascii c in
  if ((65 <=? n) && (n <=? 90))%nat
  then Ascii.ascii_of_nat (n + 32)
  else c.

(** [s.lower()], for the ASCII strings the select box offers. *)
Fixpoint str_lower (s : string) : string :=
  match s with
  | EmptyString => EmptyString
  | String c rest => String (lower_ascii c) (str_lower rest)
  end.

(** [s.replace(old, new)] for one-character [old] and [new]. *)
Fixpoint str_replace (old new : Ascii.ascii) (s : string) : string :=
  match s with
  | EmptyString => EmptyString
  | String c rest =>
      String (if Ascii.eqb c old then new else c) (str_replace old new rest)
  end.

(** The characters [' '] and ['_']. *)
Definition space : Ascii.ascii := Ascii.ascii_of_nat 32.
Definition underscore : Ascii.ascii := Ascii.ascii_of_nat 95.

(** [f"enhanced_{enhancement_type.lower().replace(' ', '_')}.png"]. *)
Definition download_file_name (enhancement_type : string) : string :=
  "enhanced_" ++
  str_replace space underscore (str_lower enhancement_type) ++ ".png".

(** Pillow, NumPy's conversion of an image and Streamlit's drawing, as
    [main] and [enhance_image] call them outside any [try] block: what they
    raise reaches the caller.  [None] means that the call completes. *)
Class Frontend (E : Externals) : Type := {
  UploadedFile : Type;
  PILImage : Type;
  (* Image.open(uploaded_file) *)
  Image_open : UploadedFile -> outcome PILImage;
  (* st.image(original_image, use_container_width=True) *)
  st_image : PILImage -> option exn;
  (* np.array(image): decodes the picture *)
  np_array : PILImage -> outcome ndarray;
  (* entering [with st.spinner(text)] *)
  st_spinner : string -> option exn
}.

Section Page.
Context {E : Externals} {F : Frontend E}.

(** The [try] statement of [enhance_image] on the pixel array. *)
Definition enhance_image_try (image : ndarray) (enhancement_type : string)
    (strength : Z) : M ndarray :=
  fun w =>
    let '(o, (_, w')) :=
      try_except (enhance_image_body enhancement_type strength)
                 enhance_image_handler
                 ({| img_array := image |}, w) in
    (o, w').

(** [enhance_image(image, enhancement_type, strength)] as the page calls it,
    on a Pillow image: the load attempt, the conversion to an array and the
    spinner come before the [try] statement. *)
Definition enhance_image_method (env : LoadEnv) (image : PILImage)
    (enhancement_type : string) (strength : Z) : M ndarray :=
  load_models env ;;;
  img_array <- lift (np_array image) ;;
  may_fail (st_spinner ("✨ Applying " ++ enhancement_type ++ " enhancement...")) ;;;
  enhance_image_try img_array enhancement_type strength.

(** One run of [main], as far as the enhancement: [enhancer =
    ImageEnhancer()], then, when a file was uploaded, [Image.open], [st.image]
    and [enhancer.enhance_image(original_image, enhancement_type,
    strength)].  The widgets drawn in between do not touch the enhancer. *)
Definition main_enhanced (cuda_is_available : bool) (env : LoadEnv)
    (uploaded_file : option UploadedFile) (enhancement_type : string)
    (strength : Z) : option (outcome ndarray * World) :=
  let enhancer := init cuda_is_available in
  match uploaded_file with
  | Some file =>
      Some ((original_image <- lift (Image_open file) ;;
             may_fail (st_image original_image) ;;;
             enhance_image_method env original_image enhancement_type strength)
              enhancer)
  | None => None
  end.

End Page.

(** A page on the small implementation: an upload either holds a picture or
    bytes that are no picture; drawing always completes. *)
Definition raster_frontend (face_raises upsampler_raises : option exn)
  : Frontend (Raster.externals face_raises upsampler_raises) :=
  {| UploadedFile := option Raster.array;
     PILImage := Raster.array;
     Image_open := fun file =>
       match file with
       | Some picture => Returned picture
       | None => Raised (ValueError "cannot identify image file")
       end;
     st_image := fun _ => None;
     np_array := fun picture : Raster.array =>
       (Returned picture
        : outcome (@ndarray (Raster.externals face_raises upsampler_raises)));
     st_spinner := fun _ => None |}.

(** The events of a failure report, as both handlers write them. *)
Definition failure_report (prefix : string) (e : exn) : list event :=
  [ EvLoggerError (prefix ++ str_exn e); EvStError (prefix ++ str_exn e) ].

(** The handles [load_models] builds on a given device. *)
Definition configured_GFPGANer (d : device) : GFPGANer :=
  {| gfpgan_model_path := "GFPGANv1.4.pth";
     gfpgan_upscale := 2;
     gfpgan_arch := "clean";
     gfpgan_channel_multiplier := 2;
     gfpgan_device := d |}.

Definition configured_RRDBNet : RRDBNet :=
  {| num_in_ch := 3; num_out_ch := 3; num_feat := 64;
     num_block := 23; num_grow_ch := 32; rrdb_scale := 4 |}.

Definition configured_RealESRGANer (d : device) : RealESRGANer :=
  {| esrgan_scale := 4;
     esrgan_model_path := "RealESRGAN_x4plus.pth";
     esrgan_model := configured_RRDBNet;
     esrgan_device := d |}.

(** Everything a load attempt needs from its environment on device [d]. *)
Definition load_can_succeed (env : LoadEnv) (d : device) : bool :=
  os_path_exists env "GFPGANv1.4.pth" &&
  os_path_exists env "RealESRGAN_x4plus.pth" &&
  match import_fails env "gfpgan",
        GFPGANer_fails env (configured_GFPGANer d),
        import_fails env "basicsr.archs.rrdbnet_arch",
        import_fails env "realesrgan",
        RRDBNet_fails env configured_RRDBNet,
        RealESRGANer_fails env (configured_RealESRGANer d) with
  | None, None, None, None, None, None => true
  | _, _, _, _, _, _ => false
  end.

(** Every loaded backend is the one [load_models] configures for the device
    chosen in [__init__]. *)
Definition backends_configured (s : ImageEnhancer) : Prop :=
  (forall g, gfpgan_model s = Some g -> g = configured_GFPGANer (self_device s)) /\
  (forall u, upsampler s = Some u -> u = configured_RealESRGANer (self_device s)).

(** Events of the file check, the imports and the constructors: everything a
    load attempt does before it reports. *)
Definition is_probe_event (ev : event) : bool :=
  match ev with
  | EvPathExists _ _ | EvImport _ | EvConstruct _ => true
  | _ => false
  end.

(** What a load attempt needs to get as far as assigning the face backend. *)
Definition face_backend_can_load (env : LoadEnv) (d : device) : bool :=
  os_path_exists env "GFPGANv1.4.pth" &&
  os_path_exists env "RealESRGAN_x4plus.pth" &&
  match import_fails env "gfpgan",
        GFPGANer_fails env (configured_GFPGANer d) with
  | None, None => true
  | _, _ => false
  end.

(** * Theorems *)

(** ** Loading the backends *)

Ltac unfold_monad :=
  unfold load_models, load_models_body, try_except, path_exists, import_module,
    new_GFPGANer, new_RRDBNet, new_RealESRGANer, logger_info, logger_error,
    st_error, set_gfpgan_model, set_upsampler, set_models_loaded, may_fail,
    modify_self, get_self, emit, lift, raise, bind, ret in *.

(** Case analysis on everything [load_models] asks its environment. *)
Ltac ask_env env :=
  repeat match goal with
  | |- context [os_path_exists env ?p] =>
      let H := fresh "Hexists" in destruct (os_path_exists env p) eqn:H; cbn
  | |- context [import_fails env ?m] =>
      let H := fresh "Himport" in destruct (import_fails env m) eqn:H; cbn
  | |- context [GFPGANer_fails env ?g] =>
      let H := fresh "Hface" in destruct (GFPGANer_fails env g) eqn:H; cbn
  | |- context [RRDBNet_fails env ?n] =>
      let H := fresh "Hnet" in destruct (RRDBNet_fails env n) eqn:H; cbn
  | |- context [RealESRGANer_fails env ?u] =>
      let H := fresh "Hup" in destruct (RealESRGANer_fails env u) eqn:H; cbn
  end.

Lemma load_models_when_loaded env w :
  models_loaded (self w) = true -> load_models env w = (Returned tt, w).
Proof.
  intros Hl. unfold load_models, bind, get_self. rewrite Hl. reflexivity.
Qed.

(** [load_models] has its own handler: it returns whatever happens. *)
Lemma load_models_returns env w : fst (load_models env w) = Returned tt.
Proof.
  destruct (models_loaded (self w)) eqn:Hl.
  - now rewrite load_models_when_loaded.
  - unfold_monad. rewrite Hl. cbn. ask_env env; reflexivity.
Qed.


Lemma load_models_consistent env w :
  backends_consistent (self w) ->
  backends_consistent (self (snd (load_models env w))).
Proof.
  intros [Hflag Hface].
  destruct (models_loaded (self w)) eqn:Hl.
  - rewrite load_models_when_loaded by assumption. cbn. split; [now rewrite Hl|exact Hface].
  - assert (Hnone : upsampler (self w) = None).
    { destruct (upsampler (self w)); [|reflexivity].
      assert (false = true) by (apply Hflag; discriminate). discriminate. }
    unfold_monad. rewrite Hl. cbn.
    ask_env env; unfold backends_consistent; cbn; rewrite ?Hl, ?Hnone;
      (split; [split; [discriminate || congruence | congruence] | congruence]).
Qed.

(** ** The [try] block of [enhance_image] *)

Section BodyLemmas.
Context {E : Externals}.

Lemma keeps_world_ret {A} (a : A) : keeps_world (ret a).
Proof. intros f w. reflexivity. Qed.

Lemma keeps_world_lift {A} (o : outcome A) : keeps_world (lift o).
Proof. intros f w. reflexivity. Qed.

Lemma keeps_world_get_img_array : keeps_world get_img_array.
Proof. intros f w. reflexivity. Qed.

Lemma keeps_world_set_img_array a : keeps_world (set_img_array a).
Proof. intros f w. reflexivity. Qed.

Lemma keeps_world_get_self : keeps_world (in_world get_self).
Proof. intros f w. reflexivity. Qed.

Lemma keeps_world_bind {A B} (m : Body A) (k : A -> Body B) :
  keeps_world m -> (forall a, keeps_world (k a)) -> keeps_world (bind m k).
Proof.
  intros Hm Hk f w. unfold bind.
  specialize (Hm f w).
  destruct (m (f, w)) as [[a | e] [f' w']]; cbn in *; subst.
  - apply Hk.
  - reflexivity.
Qed.

End BodyLemmas.

Create HintDb keeps.

#[local] Hint Resolve keeps_world_ret keeps_world_lift
  keeps_world_get_img_array keeps_world_set_img_array
  keeps_world_get_self : keeps.

(** Walk through a block statement by statement. *)
Ltac walk_block :=
  repeat first
    [ apply keeps_world_bind; [solve [auto with keeps] | intros]
    | solve [auto with keeps]
    | match goal with
      | |- keeps_world (if ?c then _ else _) => destruct c
      | |- keeps_world (match ?x with _ => _ end) => destruct x
      | |- keeps_world (let '(_, _) := ?x in _) => destruct x
      end ].

Section EnhanceLemmas.
Context {E : Externals}.

Lemma _advanced_face_enhancement_keeps_world img :
  keeps_world (_advanced_face_enhancement img).
Proof. unfold _advanced_face_enhancement. walk_block. Qed.

Lemma enhance_image_body_keeps_world enhancement_type strength :
  keeps_world (enhance_image_body enhancement_type strength).
Proof.
  unfold enhance_image_body.
  apply keeps_world_bind; [auto with keeps | intros s].
  repeat match goal with
  | |- keeps_world (if ?c then _ else _) => destruct c
  end;
  try match goal with
  | |- keeps_world (match ?x with _ => _ end) => destruct x
  end;
  try (apply keeps_world_bind; [auto with keeps | intros];
       apply _advanced_face_enhancement_keeps_world);
  walk_block.
Qed.

(** [enhance_image] changes the object only through [load_models]. *)
Lemma enhance_image_self env image enhancement_type strength w :
  self (snd (enhance_image env image enhancement_type strength w)) =
  self (snd (load_models env w)).
Proof.
  unfold enhance_image, bind.
  pose proof (load_models_returns env w) as Hr.
  destruct (load_models env w) as [o w1]; cbn in Hr; subst o. cbn.
  unfold try_except.
  pose proof (enhance_image_body_keeps_world enhancement_type strength
                {| img_array := image |} w1) as Hk.
  destruct (enhance_image_body enhancement_type strength
              ({| img_array := image |}, w1)) as [[out | e] [f' w2]];
    cbn in Hk; subst w2; reflexivity.
Qed.

(** [enhance_image] never raises: the handler returns the local
    [img_array]. *)
Lemma enhance_image_returns env image enhancement_type strength w :
  exists out, fst (enhance_image env image enhancement_type strength w) = Returned out.
Proof.
  unfold enhance_image, bind.
  pose proof (load_models_returns env w) as Hr.
  destruct (load_models env w) as [o w1]; cbn in Hr; subst o. cbn.
  unfold try_except.
  destruct (enhance_image_body enhancement_type strength
              ({| img_array := image |}, w1)) as [[out | e] [f' w2]]; cbn.
  - now exists out.
  - now exists (img_array f').
Qed.

End EnhanceLemmas.

(** ** Branch by branch *)

Ltac unfold_body :=
  unfold enhance_image_body, _advanced_face_enhancement, in_world, get_self,
    get_img_array, set_img_array, lift, bind, ret;
  cbn; cbv beta iota delta [fst snd].

(** Case analysis on the result of the next library call. *)
Ltac call_libraries :=
  repeat match goal with
  | |- context [match ?o with Returned _ => _ | Raised _ => _ end] =>
      destruct o as [? | ?]; cbn
  | |- context [let '(_, _) := ?x in _] => destruct x; cbn
  | |- context [match ?x with (_, _) => _ end] => destruct x; cbn
  end.

Section Branches.
Context {E : Externals}.

(** The result of a call in terms of what its [try] block did. *)
Lemma enhance_image_from_body env image enhancement_type strength w o f' w' :
  enhance_image_body enhancement_type strength
    ({| img_array := image |}, snd (load_models env w)) = (o, (f', w')) ->
  fst (enhance_image env image enhancement_type strength w) =
  Returned (match o with Returned out => out | Raised _ => img_array f' end).
Proof.
  intros Hb. unfold enhance_image, bind.
  pose proof (load_models_returns env w) as Hr.
  destruct (load_models env w) as [r w1]. cbn [fst snd] in Hr, Hb. subst r.
  cbv beta iota. unfold try_except. rewrite Hb. destruct o; reflexivity.
Qed.

Lemma body_sharpen strength f w :
  enhance_image_body SHARPEN strength (f, w) =
  (convolve3x3 5 (-1) 0 (img_array f), (f, w)).
Proof.
  unfold_body. cbn. unfold convolve3x3. call_libraries; reflexivity.
Qed.

Lemma body_color_correction strength f w :
  enhance_image_body COLOR_CORRECTION strength (f, w) =
  (equalize_luminance 3.0%float (8%nat, 8%nat) (img_array f), (f, w)).
Proof.
  unfold_body. cbn. unfold equalize_luminance, and_then, createCLAHE.
  call_libraries; reflexivity.
Qed.

Lemma body_denoise strength f w :
  enhance_image_body DENOISE strength (f, w) =
  (fastNlMeansDenoisingColored (img_array f) strength strength 7 21, (f, w)).
Proof. unfold_body. cbn. call_libraries; reflexivity. Qed.

Lemma body_remove_background strength f w :
  enhance_image_body REMOVE_BACKGROUND strength (f, w) =
  (remove (img_array f), (f, w)).
Proof. unfold_body. cbn. call_libraries; reflexivity. Qed.

Lemma body_face_fallback strength f w :
  gfpgan_model (self w) = None ->
  enhance_image_body FACE_ENHANCEMENT strength (f, w) =
  (three_stage_pipeline (img_array f), (f, w)).
Proof.
  intros Hnone. unfold_body. cbn. rewrite Hnone.
  unfold three_stage_pipeline, equalize_luminance, convolve3x3, and_then, createCLAHE.
  destruct (cvtColor (img_array f) COLOR_RGB2LAB) as [lab | e]; cbn; [|reflexivity].
  destruct (split lab) as [planes | e]; cbn; [|reflexivity].
  destruct (unpack3 planes) as [[[l a] b] | e]; cbn; [|reflexivity].
  destruct (CLAHE_apply _ l) as [cl | e]; cbn; [|reflexivity].
  destruct (merge _) as [limg | e]; cbn; [|reflexivity].
  destruct (cvtColor limg _) as [rgb | e]; cbn; [|reflexivity].
  destruct (filter2D _ _ _) as [sharp | e]; cbn; [|reflexivity].
  destruct (bilateralFilter _ _ _ _); reflexivity.
Qed.

Lemma body_face_neural strength f w g :
  gfpgan_model (self w) = Some g ->
  enhance_image_body FACE_ENHANCEMENT strength (f, w) =
  match cvtColor (img_array f) COLOR_RGB2BGR with
  | Raised e => (Raised e, (f, w))
  | Returned bgr =>
      (and_then (GFPGANer_enhance g bgr false false true (blend_weight strength))
                (fun res => cvtColor (snd res) COLOR_BGR2RGB),
       ({| img_array := bgr |}, w))
  end.
Proof.
  intros Hsome. unfold_body. cbn. rewrite Hsome. unfold and_then.
  destruct (cvtColor (img_array f) COLOR_RGB2BGR) as [bgr | e]; cbn; [|reflexivity].
  destruct (GFPGANer_enhance g bgr false false true (blend_weight strength))
    as [[[faces restored] out] | e]; cbn; [|reflexivity].
  destruct (cvtColor out COLOR_BGR2RGB); reflexivity.
Qed.

Lemma body_super_resolution_fallback strength f w :
  upsampler (self w) = None ->
  enhance_image_body SUPER_RESOLUTION strength (f, w) =
  (and_then (unpack2 (firstn 2 (shape (img_array f))))
            (fun hw => resize (img_array f)
                         ((snd hw * 2)%nat, (fst hw * 2)%nat) INTER_CUBIC),
   (f, w)).
Proof.
  intros Hnone. unfold_body. cbn. rewrite Hnone. unfold and_then.
  cbn [firstn].
  destruct (unpack2 _) as [[h wd] | e]; cbn; [|reflexivity].
  destruct (resize _ _ _); reflexivity.
Qed.

Lemma body_unknown enhancement_type strength f w :
  ~ In enhancement_type supported_operations ->
  enhance_image_body enhancement_type strength (f, w) =
  (Returned (img_array f), (f, w)).
Proof.
  intros Hnot. unfold_body. cbn.
  assert (Hne : forall name, In name supported_operations ->
                             String.eqb enhancement_type name = false).
  { intros name Hin. apply String.eqb_neq. intros ->. contradiction. }
  unfold supported_operations, SUPER_RESOLUTION, FACE_ENHANCEMENT, DENOISE,
    SHARPEN, REMOVE_BACKGROUND, COLOR_CORRECTION in Hne.
  rewrite !Hne by (cbn; tauto). reflexivity.
Qed.

Lemma unknown_body_result env image enhancement_type strength w :
  ~ In enhancement_type supported_operations ->
  fst (enhance_image env image enhancement_type strength w) = Returned image.
Proof.
  intros Hnot.
  rewrite (enhance_image_from_body env image enhancement_type strength w
             (Returned image) {| img_array := image |} (snd (load_models env w))).
  - reflexivity.
  - now apply body_unknown.
Qed.

End Branches.

(** ** The small implementation satisfies what the libraries are relied on for *)

Lemma raster_convert_shape a code b :
  Raster.convert a code = Returned b -> Raster.dims b = Raster.dims a.
Proof.
  unfold Raster.convert. intros H.
  destruct (Raster.dims a) as [|h [|w [|c rest]]] eqn:Hd; try discriminate H.
  destruct c as [|[|[|[|?]]]]; destruct rest; try discriminate H.
  destruct code; inversion H; subst; cbn; congruence.
Qed.

Lemma raster_scaled_shape a h w c dh dw :
  Raster.dims a = [h; w; c] ->
  exists b, Raster.scaled a dh dw = Returned b /\ Raster.dims b = [dh; dw; c].
Proof.
  intros Hd. unfold Raster.scaled. rewrite Hd. eexists; split; reflexivity.
Qed.

Lemma raster_laws face_raises upsampler_raises :
  ExternalsLaws (Raster.externals face_raises upsampler_raises).
Proof.
  constructor; cbn.
  - apply raster_convert_shape.
  - intros a planes h w c Hs Hd. unfold Raster.split_planes in Hs.
    rewrite Hd in Hs. inversion Hs; subst. split.
    + now rewrite length_map, length_seq.
    + apply Forall_forall. intros p Hin.
      apply in_map_iff in Hin. destruct Hin as [ch [<- _]]. reflexivity.
  - intros planes a h w Hm Hall. unfold Raster.merge_planes in Hm.
    destruct planes as [|p rest]; [discriminate|].
    inversion Hall as [|? ? Hp _]; subst. rewrite Hp in Hm.
    inversion Hm; subst. reflexivity.
  - intros c a b H. inversion H. reflexivity.
  - intros a ddepth kernel b H. inversion H. reflexivity.
  - intros a d sc ss b H. inversion H. reflexivity.
  - intros a h hc t sw b H. inversion H. reflexivity.
  - intros a h w dw dh interp Hd _ _ _ _.
    destruct (raster_scaled_shape a h w 3 dh dw Hd) as [b [Hb Hs]].
    exists b. split; assumption.
  - intros g a aligned center weight faces restored out h w He Hd.
    destruct face_raises; [discriminate|].
    rewrite Hd in He.
    destruct (raster_scaled_shape a h w 3
                (h * gfpgan_upscale g) (w * gfpgan_upscale g) Hd) as [b [Hb Hs]].
    rewrite Hb in He. cbn in He. inversion He; subst. exact Hs.
Qed.

(** ** The model registry *)

(** C2, as the code has it: when a weight file named in [MODEL_PATHS] is
    missing, a call of [load_models] on an object that is not loaded raises
    [FileNotFoundError] in its file check, before anything is imported or
    constructed, whichever of the two files it is: every attribute is left as
    it was, the call returns, and after the checks that passed and the one
    that did not, the message naming the missing file goes to the logger and
    to the page. *)
Theorem load_models_missing_weights_loads_nothing env w :
  models_loaded (self w) = false ->
  (exists model_name path,
      In (model_name, path) MODEL_PATHS /\ os_path_exists env path = false) ->
  fst (load_models env w) = Returned tt /\
  self (snd (load_models env w)) = self w /\
  (exists evs,
      trace (snd (load_models env w)) = (trace w ++ evs)%list /\
      existsb is_load_event evs = false) /\
  exists passed missing_name missing_path,
    In (missing_name, missing_path) MODEL_PATHS /\
    os_path_exists env missing_path = false /\
    Forall (fun ev => exists path, ev = EvPathExists path true) passed /\
    trace (snd (load_models env w)) =
    (trace w ++ passed ++
     EvPathExists missing_path false ::
     failure_report "Model loading failed: "
       (FileNotFoundError (missing_name ++ " model not found at " ++ missing_path)))%list.
Proof.
  intros Hl (model_name & path & Hin & Hmissing).
  split; [apply load_models_returns|].
  unfold MODEL_PATHS in Hin. cbn in Hin. unfold failure_report.
  unfold_monad. rewrite Hl. cbn.
  destruct (os_path_exists env "GFPGANv1.4.pth") eqn:Hg; cbn.
  - assert (Hr : os_path_exists env "RealESRGAN_x4plus.pth" = false).
    { destruct Hin as [Heq | [Heq | []]]; inversion Heq; subst; congruence. }
    rewrite Hr. cbn. destruct w as [s t]. cbn. rewrite <- !app_assoc. cbn.
    split; [reflexivity|]. split.
    + eexists. split; reflexivity.
    + exists [EvPathExists "GFPGANv1.4.pth" true],
        "RealESRGAN", "RealESRGAN_x4plus.pth".
      split; [cbn; tauto|]. split; [exact Hr|]. split; [|reflexivity].
      repeat constructor. now exists "GFPGANv1.4.pth".
  - destruct w as [s t]. cbn. rewrite <- !app_assoc. cbn.
    split; [reflexivity|]. split.
    + eexists. split; reflexivity.
    + exists [], "GFPGAN", "GFPGANv1.4.pth".
      split; [cbn; tauto|]. split; [exact Hg|]. split; [constructor | reflexivity].
Qed.

Lemma load_models_missing_weights_loads_nothing_witness :
  models_loaded (self (init false)) = false /\
  os_path_exists Envs.gfpgan_weights_missing "GFPGANv1.4.pth" = false /\
  self (snd (load_models Envs.gfpgan_weights_missing (init false))) = self (init false).
Proof.
  split; [reflexivity|]. split; [reflexivity|].
  apply (load_models_missing_weights_loads_nothing
           Envs.gfpgan_weights_missing (init false)).
  - reflexivity.
  - exists "GFPGAN", "GFPGANv1.4.pth". split; [simpl; tauto | reflexivity].
Defined.

(** C2, refuted as stated: with only the GFPGAN weights missing, and
    Real-ESRGAN ready to load, the super-resolution backend is not loaded and
    nothing is imported or constructed. *)
Lemma missing_face_weights_block_upsampler :
  os_path_exists Envs.gfpgan_weights_missing "GFPGANv1.4.pth" = false /\
  os_path_exists Envs.gfpgan_weights_missing "RealESRGAN_x4plus.pth" = true /\
  (forall u, RealESRGANer_fails Envs.gfpgan_weights_missing u = None) /\
  upsampler (self (snd (load_models Envs.gfpgan_weights_missing (init false)))) = None /\
  existsb is_load_event
    (trace (snd (load_models Envs.gfpgan_weights_missing (init false)))) = false.
Proof. repeat split; reflexivity. Qed.

(** C3, refuted as stated: after a first call that failed for want of weight
    files, a second call made once the files are there loads both
    backends. *)
Lemma failed_load_is_attempted_again :
  let w1 := snd (load_models Envs.no_weights (init false)) in
  let w2 := snd (load_models Envs.all_present w1) in
  models_loaded (self w1) = false /\
  existsb is_load_event (trace w1) = false /\
  existsb is_load_event (trace w2) = true /\
  models_loaded (self w2) = true /\
  w2 <> w1.
Proof.
  cbv zeta. repeat split; try reflexivity.
  intros Heq. apply (f_equal (fun w => models_loaded (self w))) in Heq.
  vm_compute in Heq. discriminate.
Qed.

Section Registry.
Context {E : Externals}.

(** Every reachable object was configured by [load_models]: the face backend,
    when there is one, upscales by two. *)
Lemma load_models_face_upscale env w :
  (forall g, gfpgan_model (self w) = Some g -> gfpgan_upscale g = 2%nat) ->
  forall g, gfpgan_model (self (snd (load_models env w))) = Some g ->
            gfpgan_upscale g = 2%nat.
Proof.
  intros Hold g.
  destruct (models_loaded (self w)) eqn:Hl.
  - rewrite load_models_when_loaded by assumption. apply Hold.
  - unfold_monad. rewrite Hl. cbn.
    ask_env env; cbn; intros Hg; try (now apply Hold);
      inversion Hg; reflexivity.
Qed.

Lemma reachable_face_upscale w :
  reachable w ->
  forall g, gfpgan_model (self w) = Some g -> gfpgan_upscale g = 2%nat.
Proof.
  induction 1 as [c | env w Hr IH | env image op s w Hr IH].
  - intros g Hg. discriminate Hg.
  - now apply load_models_face_upscale.
  - rewrite enhance_image_self. now apply load_models_face_upscale.
Qed.

(** C10, as the code has it: in every reachable state [models_loaded] is set
    exactly when the super-resolution backend is loaded, and the
    super-resolution backend is loaded only if the face backend is.  (Both
    loaded, none loaded and the face backend alone all occur.) *)
Theorem reachable_backends_consistent w :
  reachable w -> backends_consistent (self w).
Proof.
  induction 1 as [c | env w Hr IH | env image op s w Hr IH].
  - unfold backends_consistent. cbn. split; [split|]; congruence.
  - now apply load_models_consistent.
  - rewrite enhance_image_self. now apply load_models_consistent.
Qed.

End Registry.

Lemma reachable_backends_consistent_witness :
  backends_consistent
    (self (snd (load_models Envs.realesrgan_unloadable (init true)))).
Proof.
  apply (reachable_backends_consistent (E := Raster.externals None None)).
  apply reach_load_models. apply reach_init.
Defined.

(** C10, refuted as stated: when the Real-ESRGAN weights do not load, the
    object is left with the face backend alone. *)
Lemma face_backend_alone_is_reachable :
  let w := snd (load_models Envs.realesrgan_unloadable (init false)) in
  reachable (E := Raster.externals None None) w /\
  gfpgan_model (self w) <> None /\
  upsampler (self w) = None /\
  models_loaded (self w) = false.
Proof.
  cbv zeta. split; [apply reach_load_models, reach_init|].
  split; [|split; reflexivity].
  vm_compute. discriminate.
Qed.

(** ** The dispatcher *)

Section DispatcherTheorems.
Context {E : Externals}.

(** C8: a name outside the six supported ones gives back the input image,
    and the call returns rather than raises. *)
Theorem unknown_operation_returns_input env image enhancement_type strength w :
  ~ In enhancement_type supported_operations ->
  fst (enhance_image env image enhancement_type strength w) = Returned image.
Proof.
  intros Hnot. now apply unknown_body_result.
Qed.

(** C9: Sharpen, Super Resolution, Remove Background and Color Correction
    give the same result, and leave the same state, for any two strengths. *)
Theorem strength_blind_operations_ignore_strength
    env image enhancement_type s1 s2 w :
  In enhancement_type strength_blind_operations ->
  1 <= s1 <= 10 -> 1 <= s2 <= 10 ->
  enhance_image env image enhancement_type s1 w =
  enhance_image env image enhancement_type s2 w.
Proof.
  intros Hin _ _.
  unfold strength_blind_operations in Hin. cbn in Hin.
  destruct Hin as [<- | [<- | [<- | [<- | []]]]]; reflexivity.
Qed.

(** C7: with no face backend, Face Enhancement is the three-stage pipeline
    (equalize luminance with clip limit 3.0 on 8x8 tiles, convolve with the
    kernel of centre 5, orthogonal neighbours -1 and corners 0, bilateral
    filter 9/75/75) run in that order on the input; its first stage is what
    Color Correction runs and its second is what Sharpen runs; and
    [_advanced_face_enhancement] is that pipeline, with no effect on the
    state. *)
Theorem face_enhancement_fallback_is_three_stage_pipeline
    env image strength w :
  gfpgan_model (self (snd (load_models env w))) = None ->
  fst (enhance_image env image FACE_ENHANCEMENT strength w) =
    masked image
      (and_then (equalize_luminance 3.0%float (8%nat, 8%nat) image) (fun equalized =>
       and_then (convolve3x3 5 (-1) 0 equalized) (fun sharpened =>
       bilateralFilter sharpened 9 75 75))) /\
  fst (enhance_image env image COLOR_CORRECTION strength w) =
    masked image (equalize_luminance 3.0%float (8%nat, 8%nat) image) /\
  fst (enhance_image env image SHARPEN strength w) =
    masked image (convolve3x3 5 (-1) 0 image) /\
  (forall (S : Type) (s : S),
      _advanced_face_enhancement image s = (three_stage_pipeline image, s)).
Proof.
  intros Hnone. repeat split.
  - rewrite (enhance_image_from_body env image FACE_ENHANCEMENT strength w
               (three_stage_pipeline image) {| img_array := image |}
               (snd (load_models env w)))
      by (now apply body_face_fallback).
    unfold masked, three_stage_pipeline.
    destruct (and_then _ _); reflexivity.
  - rewrite (enhance_image_from_body env image COLOR_CORRECTION strength w _
               {| img_array := image |} (snd (load_models env w))
               (body_color_correction strength _ _)).
    unfold masked. cbn [img_array]. destruct (equalize_luminance _ _ _); reflexivity.
  - rewrite (enhance_image_from_body env image SHARPEN strength w _
               {| img_array := image |} (snd (load_models env w))
               (body_sharpen strength _ _)).
    unfold masked. cbn [img_array]. destruct (convolve3x3 _ _ _ _); reflexivity.
  - intros S s.
    unfold _advanced_face_enhancement, three_stage_pipeline, equalize_luminance,
      convolve3x3, and_then, createCLAHE, lift, bind, ret.
    destruct (cvtColor image COLOR_RGB2LAB) as [lab | e]; cbn; [|reflexivity].
    destruct (split lab) as [planes | e]; cbn; [|reflexivity].
    destruct (unpack3 planes) as [[[l a] b] | e]; cbn; [|reflexivity].
    destruct (CLAHE_apply _ l) as [cl | e]; cbn; [|reflexivity].
    destruct (merge _) as [limg | e]; cbn; [|reflexivity].
    destruct (cvtColor limg _) as [rgb | e]; cbn; [|reflexivity].
    destruct (filter2D _ _ _) as [sharp | e]; cbn; [|reflexivity].
    destruct (bilateralFilter _ _ _ _); reflexivity.
Qed.

End DispatcherTheorems.

Lemma unknown_operation_returns_input_witness :
  ~ In "Blur" supported_operations /\
  fst (enhance_image (E := Raster.externals None None)
         Envs.no_weights Raster.two_by_two "Blur" 5 (init false)) =
  Returned Raster.two_by_two.
Proof.
  assert (Hnot : ~ In "Blur" supported_operations).
  { unfold supported_operations. simpl. intuition discriminate. }
  split; [exact Hnot|].
  apply (unknown_operation_returns_input (E := Raster.externals None None)).
  exact Hnot.
Defined.

Lemma strength_blind_operations_ignore_strength_witness :
  enhance_image (E := Raster.externals None None)
    Envs.all_present Raster.two_by_two SHARPEN 1 (init false) =
  enhance_image (E := Raster.externals None None)
    Envs.all_present Raster.two_by_two SHARPEN 10 (init false).
Proof.
  apply (strength_blind_operations_ignore_strength
           (E := Raster.externals None None)).
  - simpl. tauto.
  - lia.
  - lia.
Defined.

Lemma face_enhancement_fallback_is_three_stage_pipeline_witness :
  gfpgan_model (self (snd (load_models Envs.no_weights (init false)))) = None /\
  fst (enhance_image (E := Raster.externals None None)
         Envs.no_weights Raster.two_by_two FACE_ENHANCEMENT 5 (init false)) =
  Returned Raster.two_by_two.
Proof.
  split; [reflexivity|].
  rewrite (proj1 (face_enhancement_fallback_is_three_stage_pipeline
                    (E := Raster.externals None None)
                    Envs.no_weights Raster.two_by_two 5 (init false) eq_refl)).
  reflexivity.
Defined.

(** ** Shapes *)

Section Shapes.
Context {E : Externals} {L : ExternalsLaws E}.

(** C4: with no super-resolution backend, Super Resolution returns
    [cv2.resize] of the input to twice its width and twice its height with
    bicubic interpolation; a 100 x 100 RGB input gives 200 x 200 RGB. *)
Theorem super_resolution_fallback_is_bicubic_doubling
    env image strength w h wd :
  shape image = [h; wd; 3%nat] -> (1 <= h)%nat -> (1 <= wd)%nat ->
  upsampler (self (snd (load_models env w))) = None ->
  exists out,
    resize image ((wd * 2)%nat, (h * 2)%nat) INTER_CUBIC = Returned out /\
    fst (enhance_image env image SUPER_RESOLUTION strength w) = Returned out /\
    shape out = [(h * 2)%nat; (wd * 2)%nat; 3%nat] /\
    (h = 100%nat -> wd = 100%nat -> shape out = [200%nat; 200%nat; 3%nat]).
Proof.
  intros Hs Hh Hw Hnone.
  destruct (resize_shape image h wd (wd * 2) (h * 2) INTER_CUBIC Hs Hh Hw)
    as [out [Hr Hout]]; [lia | lia |].
  exists out. split; [exact Hr|]. split; [|split; [exact Hout|]].
  - rewrite (enhance_image_from_body env image SUPER_RESOLUTION strength w _
               {| img_array := image |} (snd (load_models env w))
               (body_super_resolution_fallback strength _ _ Hnone)).
    cbn [img_array]. rewrite Hs. cbn. rewrite Hr. reflexivity.
  - intros -> ->. exact Hout.
Qed.

(** The transforms of the classical branches keep the shape. *)
Lemma equalize_luminance_shape clip tiles image h wd out :
  shape image = [h; wd; 3%nat] ->
  equalize_luminance clip tiles image = Returned out ->
  shape out = [h; wd; 3%nat].
Proof.
  intros Hs. unfold equalize_luminance, and_then.
  destruct (cvtColor image COLOR_RGB2LAB) as [lab | e] eqn:Hlab; [|discriminate].
  destruct (split lab) as [planes | e] eqn:Hsplit; [|discriminate].
  destruct (unpack3 planes) as [[[l a] b] | e] eqn:Hun; [|discriminate].
  destruct (CLAHE_apply _ l) as [cl | e] eqn:Hcl; [|discriminate].
  destruct (merge _) as [limg | e] eqn:Hm; [|discriminate].
  intros Hout.
  assert (Hlabs : shape lab = [h; wd; 3%nat])
    by (rewrite (cvtColor_shape _ _ _ Hlab); exact Hs).
  destruct (split_shape _ _ _ _ _ Hsplit Hlabs) as [_ Hall].
  assert (planes = [l; a; b]) as ->.
  { destruct planes as [|p0 [|p1 [|p2 [|? ?]]]]; cbn in Hun; try discriminate.
    now inversion Hun. }
  inversion Hall as [|? ? Hl Hall1]; subst.
  inversion Hall1 as [|? ? Ha Hall2]; subst.
  inversion Hall2 as [|? ? Hb _]; subst.
  rewrite (cvtColor_shape _ _ _ Hout).
  rewrite (merge_shape _ _ h wd Hm); [reflexivity|].
  repeat constructor; try assumption.
  rewrite (CLAHE_apply_shape _ _ _ Hcl). exact Hl.
Qed.

Lemma three_stage_pipeline_shape image h wd out :
  shape image = [h; wd; 3%nat] ->
  three_stage_pipeline image = Returned out ->
  shape out = [h; wd; 3%nat].
Proof.
  intros Hs. unfold three_stage_pipeline, convolve3x3, and_then.
  destruct (equalize_luminance _ _ image) as [eq | e] eqn:Heq; [|discriminate].
  destruct (filter2D eq _ _) as [sharp | e] eqn:Hf; [|discriminate].
  intros Hb.
  rewrite (bilateralFilter_shape _ _ _ _ _ Hb), (filter2D_shape _ _ _ _ Hf).
  eapply equalize_luminance_shape; eassumption.
Qed.

(** Off the neural face path, and apart from Super Resolution and Remove
    Background, what comes back has the shape of the input. *)
Lemma classical_shape
    env image enhancement_type strength w h wd out :
  shape image = [h; wd; 3%nat] ->
  enhancement_type <> SUPER_RESOLUTION ->
  enhancement_type <> REMOVE_BACKGROUND ->
  (enhancement_type = FACE_ENHANCEMENT ->
   gfpgan_model (self (snd (load_models env w))) = None) ->
  fst (enhance_image env image enhancement_type strength w) = Returned out ->
  shape out = [h; wd; 3%nat].
Proof.
  intros Hs Hsr Hrb Hface.
  set (w1 := snd (load_models env w)) in *.
  set (f := {| img_array := image |}).
  destruct (string_dec enhancement_type FACE_ENHANCEMENT) as [-> | Hfe].
  { rewrite (enhance_image_from_body env image FACE_ENHANCEMENT strength w _ f w1
               (body_face_fallback strength f w1 (Hface eq_refl))).
    cbn [img_array f].
    destruct (three_stage_pipeline image) as [o | e] eqn:Hp; intros Ho; inversion Ho; subst.
    - eapply three_stage_pipeline_shape; eassumption.
    - exact Hs. }
  destruct (string_dec enhancement_type DENOISE) as [-> | Hdn].
  { rewrite (enhance_image_from_body env image DENOISE strength w _ f w1
               (body_denoise strength f w1)).
    cbn [img_array f].
    destruct (fastNlMeansDenoisingColored image _ _ _ _) as [o | e] eqn:Hp;
      intros Ho; inversion Ho; subst.
    - rewrite (fastNlMeansDenoisingColored_shape _ _ _ _ _ _ Hp). exact Hs.
    - exact Hs. }
  destruct (string_dec enhancement_type SHARPEN) as [-> | Hsh].
  { rewrite (enhance_image_from_body env image SHARPEN strength w _ f w1
               (body_sharpen strength f w1)).
    cbn [img_array f]. unfold convolve3x3.
    destruct (filter2D image _ _) as [o | e] eqn:Hp; intros Ho; inversion Ho; subst.
    - rewrite (filter2D_shape _ _ _ _ Hp). exact Hs.
    - exact Hs. }
  destruct (string_dec enhancement_type COLOR_CORRECTION) as [-> | Hcc].
  { rewrite (enhance_image_from_body env image COLOR_CORRECTION strength w _ f w1
               (body_color_correction strength f w1)).
    cbn [img_array f].
    destruct (equalize_luminance _ _ image) as [o | e] eqn:Hp;
      intros Ho; inversion Ho; subst.
    - eapply equalize_luminance_shape; eassumption.
    - exact Hs. }
  assert (Hnot : ~ In enhancement_type supported_operations).
  { unfold supported_operations. cbn. intuition congruence. }
  rewrite (unknown_body_result env image enhancement_type strength w Hnot).
  intros Ho; inversion Ho; subst. exact Hs.
Qed.

(** On a loaded face backend, a Face Enhancement that completes returns the
    input scaled by the [upscale] the backend was built with. *)
Lemma face_enhancement_neural_shape env image strength w g h wd bgr faces restored pasted out :
  shape image = [h; wd; 3%nat] ->
  gfpgan_model (self (snd (load_models env w))) = Some g ->
  cvtColor image COLOR_RGB2BGR = Returned bgr ->
  GFPGANer_enhance g bgr false false true (blend_weight strength) =
    Returned (faces, restored, pasted) ->
  cvtColor pasted COLOR_BGR2RGB = Returned out ->
  fst (enhance_image env image FACE_ENHANCEMENT strength w) = Returned out /\
  shape out = [(h * gfpgan_upscale g)%nat; (wd * gfpgan_upscale g)%nat; 3%nat].
Proof.
  intros Hs Hg Hbgr Hen Hout. split.
  - set (w1 := snd (load_models env w)) in *.
    pose proof (body_face_neural strength {| img_array := image |} w1 g Hg) as Hb.
    cbn [img_array] in Hb. rewrite Hbgr, Hen in Hb.
    unfold and_then in Hb. cbn [snd] in Hb. rewrite Hout in Hb.
    now rewrite (enhance_image_from_body env image _ strength w _ _ w1 Hb).
  - rewrite (cvtColor_shape _ _ _ Hout).
    eapply GFPGANer_enhance_shape; [eassumption|].
    rewrite (cvtColor_shape _ _ _ Hbgr). exact Hs.
Qed.

End Shapes.

Lemma super_resolution_fallback_is_bicubic_doubling_witness :
  Raster.dims Raster.two_by_two = [2; 2; 3]%nat /\
  upsampler (self (snd (load_models Envs.no_weights (init false)))) = None /\
  exists out,
    fst (enhance_image (E := Raster.externals None None)
           Envs.no_weights Raster.two_by_two SUPER_RESOLUTION 5 (init false)) =
    Returned out /\
    Raster.dims out = [4; 4; 3]%nat.
Proof.
  split; [reflexivity|]. split; [reflexivity|].
  destruct (super_resolution_fallback_is_bicubic_doubling
              (E := Raster.externals None None) (L := raster_laws None None)
              Envs.no_weights Raster.two_by_two 5 (init false) 2 2
              eq_refl ltac:(lia) ltac:(lia) eq_refl)
    as [out [_ [Hcall [Hshape _]]]].
  exists out. split; [exact Hcall | exact Hshape].
Defined.

(** C6, refuted as stated: once the face backend is loaded (it is built with
    [upscale=2]), Face Enhancement of a 1 x 1 image returns a 2 x 2 image. *)
Lemma face_enhancement_on_loaded_backend_doubles_shape :
  let E := Raster.externals None None in
  let out := {| Raster.dims := [2; 2; 3]%nat;
                Raster.cells := [ 250; 120; 10;  250; 120; 10;
                                  250; 120; 10;  250; 120; 10 ] |} in
  FACE_ENHANCEMENT <> SUPER_RESOLUTION /\
  FACE_ENHANCEMENT <> REMOVE_BACKGROUND /\
  reachable (init false) /\
  shape Raster.one_pixel = [1; 1; 3]%nat /\
  fst (enhance_image Envs.all_present Raster.one_pixel FACE_ENHANCEMENT 5 (init false)) =
    Returned out /\
  shape out = [2; 2; 3]%nat /\
  shape out <> shape Raster.one_pixel.
Proof.
  cbv zeta. split; [discriminate|]. split; [discriminate|].
  split; [apply reach_init|]. repeat split; try reflexivity.
  cbn. discriminate.
Qed.

(** ** The blend weight *)

Ltac each_strength s H :=
  assert (s = 1 \/ s = 2 \/ s = 3 \/ s = 4 \/ s = 5 \/
          s = 6 \/ s = 7 \/ s = 8 \/ s = 9 \/ s = 10) as H by lia;
  repeat (destruct H as [H | H]); subst s.

Section BlendWeight.
Context {E : Externals}.

(** C5: for a strength from 1 to 10, Face Enhancement on a loaded face
    backend hands the backend the weight [min(0.5 + strength/20, 0.9)] (with
    the BGR copy of the image, [has_aligned=False], [only_center_face=False]
    and [paste_back=True]); that weight lies between 0.5 and 0.9, does not
    decrease when the strength grows, is 0.55 at 1 and 0.9 at 10. *)
Theorem blend_weight_is_capped_and_monotone (strength : Z) :
  1 <= strength <= 10 ->
  (forall env image w g bgr,
      gfpgan_model (self (snd (load_models env w))) = Some g ->
      cvtColor image COLOR_RGB2BGR = Returned bgr ->
      fst (enhance_image env image FACE_ENHANCEMENT strength w) =
      Returned
        match
          and_then
            (GFPGANer_enhance g bgr false false true
               (py_min (PrimFloat.add 0.5%float
                          (PrimFloat.div (float_of_Z strength) (float_of_Z 20)))
                       0.9%float))
            (fun res => cvtColor (snd res) COLOR_BGR2RGB)
        with
        | Returned out => out
        | Raised _ => bgr
        end) /\
  blend_weight strength =
    py_min (PrimFloat.add 0.5%float
              (PrimFloat.div (float_of_Z strength) (float_of_Z 20)))
           0.9%float /\
  PrimFloat.leb 0.5%float (blend_weight strength) = true /\
  PrimFloat.leb (blend_weight strength) 0.9%float = true /\
  (forall strength', strength <= strength' <= 10 ->
     PrimFloat.leb (blend_weight strength) (blend_weight strength') = true) /\
  blend_weight 1 = 0.55%float /\
  blend_weight 10 = 0.9%float /\
  map blend_weight [1; 2; 3; 4; 5; 6; 7; 8; 9; 10] =
    [ 0.55; 0.6; 0.65; 0.7; 0.75; 0.8; 0.85; 0.9; 0.9; 0.9 ]%float.
Proof.
  intros Hrange. split.
  { intros env image w g bgr Hg Hbgr.
    set (w1 := snd (load_models env w)) in *.
    pose proof (body_face_neural strength {| img_array := image |} w1 g Hg) as Hb.
    cbn [img_array] in Hb. rewrite Hbgr in Hb.
    rewrite (enhance_image_from_body env image _ strength w _ _ w1 Hb).
    reflexivity. }
  split; [reflexivity|].
  split; [each_strength strength H; vm_compute; reflexivity|].
  split; [each_strength strength H; vm_compute; reflexivity|].
  split.
  - intros s' Hs'. each_strength strength H; each_strength s' H';
      first [exfalso; lia | vm_compute; reflexivity].
  - repeat split; vm_compute; reflexivity.
Qed.

End BlendWeight.

Lemma blend_weight_is_capped_and_monotone_witness :
  1 <= 7 <= 10 /\
  PrimFloat.leb 0.5%float (blend_weight 7) = true /\
  PrimFloat.leb (blend_weight 7) 0.9%float = true /\
  fst (enhance_image (E := Raster.externals None None)
         Envs.all_present Raster.one_pixel FACE_ENHANCEMENT 7 (init false)) =
  Returned {| Raster.dims := [2; 2; 3]%nat;
              Raster.cells := [ 250; 120; 10;  250; 120; 10;
                                250; 120; 10;  250; 120; 10 ] |}.
Proof.
  split; [lia|].
  destruct (blend_weight_is_capped_and_monotone
              (E := Raster.externals None None) 7 ltac:(lia))
    as [Hcall [_ [Hlow [Hhigh _]]]].
  split; [exact Hlow|]. split; [exact Hhigh|].
  rewrite (Hcall Envs.all_present Raster.one_pixel (init false)
             (configured_GFPGANer cpu)
             {| Raster.dims := [1; 1; 3]%nat; Raster.cells := [10; 120; 250] |}
             eq_refl eq_refl).
  vm_compute. reflexivity.
Defined.

(** ** What the handler returns *)

Section Handler.
Context {E : Externals}.

(** In the branches that do not reassign [img_array], a transform that
    raises is masked by the input image. *)
Lemma classical_failure_returns_input env image strength w :
  fst (enhance_image env image DENOISE strength w) =
    masked image (fastNlMeansDenoisingColored image strength strength 7 21) /\
  fst (enhance_image env image REMOVE_BACKGROUND strength w) =
    masked image (remove image).
Proof.
  split.
  - rewrite (enhance_image_from_body env image DENOISE strength w _
               {| img_array := image |} (snd (load_models env w))
               (body_denoise strength _ _)).
    unfold masked. cbn [img_array].
    destruct (fastNlMeansDenoisingColored _ _ _ _ _); reflexivity.
  - rewrite (enhance_image_from_body env image REMOVE_BACKGROUND strength w _
               {| img_array := image |} (snd (load_models env w))
               (body_remove_background strength _ _)).
    unfold masked. cbn [img_array]. destruct (remove _); reflexivity.
Qed.

(** In the neural face branch [img_array] is the BGR copy by the time the
    backend runs: when the backend raises, the handler returns that copy. *)
Lemma neural_face_failure_returns_bgr env image strength w g bgr e :
  gfpgan_model (self (snd (load_models env w))) = Some g ->
  cvtColor image COLOR_RGB2BGR = Returned bgr ->
  GFPGANer_enhance g bgr false false true (blend_weight strength) = Raised e ->
  fst (enhance_image env image FACE_ENHANCEMENT strength w) = Returned bgr.
Proof.
  intros Hg Hbgr Hen.
  set (w1 := snd (load_models env w)) in *.
  pose proof (body_face_neural strength {| img_array := image |} w1 g Hg) as Hb.
  cbn [img_array] in Hb. rewrite Hbgr, Hen in Hb. unfold and_then in Hb.
  now rewrite (enhance_image_from_body env image _ strength w _ _ w1 Hb).
Qed.

(** The same in the neural super-resolution branch, where [img_array] is by
    then the BGR copy converted to [float32] and divided by 255. *)
Lemma neural_super_resolution_failure_returns_scaled
    env image strength w up bgr f32 scaled e :
  upsampler (self (snd (load_models env w))) = Some up ->
  cvtColor image COLOR_RGB2BGR = Returned bgr ->
  astype bgr np_float32 = Returned f32 ->
  truediv f32 255.0%float = Returned scaled ->
  RealESRGANer_enhance up scaled 4 = Raised e ->
  fst (enhance_image env image SUPER_RESOLUTION strength w) = Returned scaled.
Proof.
  intros Hup Hbgr Hf32 Hdiv Hen.
  set (w1 := snd (load_models env w)) in *.
  assert (Hb : enhance_image_body SUPER_RESOLUTION strength
                 ({| img_array := image |}, w1) =
               (Raised e, ({| img_array := scaled |}, w1))).
  { unfold_body. rewrite Hup. cbv beta iota delta [fst snd img_array].
    rewrite Hbgr. cbv beta iota delta [fst snd img_array].
    rewrite Hf32. cbv beta iota. rewrite Hdiv.
    cbv beta iota delta [fst snd img_array]. rewrite Hen. reflexivity. }
  now rewrite (enhance_image_from_body env image _ strength w _ _ w1 Hb).
Qed.

End Handler.

(** C1 fails on the code: with the face backend loaded, a Face Enhancement
    during which the backend raises returns the BGR copy of the input, not
    the input.  (The call still returns rather than raises.) *)
Theorem failed_face_restoration_returns_bgr_copy :
  let E := Raster.externals (Some (RuntimeError "CUDA out of memory")) None in
  let bgr := {| Raster.dims := [1; 1; 3]%nat; Raster.cells := [10; 120; 250] |} in
  gfpgan_model (self (snd (load_models Envs.all_present (init false)))) <> None /\
  cvtColor Raster.one_pixel COLOR_RGB2BGR = Returned bgr /\
  fst (enhance_image Envs.all_present Raster.one_pixel FACE_ENHANCEMENT 5 (init false)) =
    Returned bgr /\
  bgr <> Raster.one_pixel.
Proof.
  cbv zeta. split; [vm_compute; discriminate|]. split; [reflexivity|].
  split; [reflexivity|]. intros Heq. inversion Heq.
Qed.

(** * Further properties of the code *)

(** ** [load_models] *)


(** On an object that is not loaded, a call ends with [models_loaded] set
    exactly when both weight files exist and the three imports and the three
    constructors complete; the object then holds the two configured
    backends. *)
Theorem load_models_succeeds_iff env w :
  models_loaded (self w) = false ->
  (models_loaded (self (snd (load_models env w))) = true <->
   load_can_succeed env (self_device (self w)) = true) /\
  (models_loaded (self (snd (load_models env w))) = true ->
   self (snd (load_models env w)) =
   {| gfpgan_model := Some (configured_GFPGANer (self_device (self w)));
      upsampler := Some (configured_RealESRGANer (self_device (self w)));
      self_device := self_device (self w);
      models_loaded := true |}).
Proof.
  intros Hl.
  unfold load_can_succeed, configured_GFPGANer, configured_RealESRGANer,
    configured_RRDBNet.
  unfold_monad. rewrite Hl. cbn.
  ask_env env; cbn; rewrite ?Hl;
    (split; [split; intros; congruence | intros; congruence]).
Qed.

Lemma load_models_succeeds_iff_witness :
  models_loaded (self (init false)) = false /\
  models_loaded (self (snd (load_models Envs.all_present (init false)))) = true.
Proof.
  split; [reflexivity|].
  apply (proj1 (load_models_succeeds_iff Envs.all_present (init false) eq_refl)).
  reflexivity.
Defined.

(** There is no way back: a call of [load_models] never unloads a backend,
    and once [models_loaded] is set the object is never touched again. *)
Theorem load_models_never_unloads env w :
  (gfpgan_model (self w) <> None ->
   gfpgan_model (self (snd (load_models env w))) <> None) /\
  (upsampler (self w) <> None ->
   upsampler (self (snd (load_models env w))) <> None) /\
  (models_loaded (self w) = true ->
   self (snd (load_models env w)) = self w).
Proof.
  destruct (models_loaded (self w)) eqn:Hl.
  - rewrite load_models_when_loaded by assumption. cbn. tauto.
  - unfold_monad. rewrite Hl. cbn.
    ask_env env; cbn; (split; [|split]); intros; congruence.
Qed.

(** A load attempt reports in one of two ways.  When it fails, the last two
    events are the same message, once to the logger and once on the page;
    when it succeeds, the last event is the logger's success line and
    nothing is shown on the page.  Before that there are only probes. *)
Theorem load_models_reports_once env w :
  models_loaded (self w) = false ->
  exists probes,
    forallb is_probe_event probes = true /\
    if models_loaded (self (snd (load_models env w)))
    then trace (snd (load_models env w)) =
         (trace w ++ probes ++ [EvLoggerInfo "AI models loaded successfully"])%list
    else exists e,
         trace (snd (load_models env w)) =
         (trace w ++ probes ++ failure_report "Model loading failed: " e)%list.
Proof.
  intros Hl. unfold failure_report. unfold_monad. rewrite Hl. cbn.
  ask_env env; cbn; rewrite ?Hl; rewrite <- ?app_assoc; cbn;
    match goal with
    | |- context [(trace w ++ ?l)%list = _] =>
        first
          [ (* a failed attempt: all but the last two events are probes *)
            let p := eval cbv in (firstn (List.length l - 2) l) in
            exists p; split; [reflexivity|];
            first [ eexists; reflexivity
                  | eexists (FileNotFoundError _); reflexivity ]
          | (* a successful one: all but the last *)
            let p := eval cbv in (firstn (List.length l - 1) l) in
            exists p; split; reflexivity ]
    end.
Qed.

Lemma load_models_reports_once_witness :
  models_loaded (self (init false)) = false /\
  exists probes,
    forallb is_probe_event probes = true /\
    exists e,
      trace (snd (load_models Envs.realesrgan_unloadable (init false))) =
      (probes ++ failure_report "Model loading failed: " e)%list.
Proof.
  split; [reflexivity|].
  exact (load_models_reports_once Envs.realesrgan_unloadable (init false) eq_refl).
Defined.

(** The file check stops at the first missing file and the report names that
    file: the second path is not even looked at when the first is missing. *)
Theorem load_models_names_first_missing_file env w :
  models_loaded (self w) = false ->
  (os_path_exists env "GFPGANv1.4.pth" = false ->
   trace (snd (load_models env w)) =
   (trace w ++
    EvPathExists "GFPGANv1.4.pth" false ::
    failure_report "Model loading failed: "
      (FileNotFoundError "GFPGAN model not found at GFPGANv1.4.pth"))%list) /\
  (os_path_exists env "GFPGANv1.4.pth" = true ->
   os_path_exists env "RealESRGAN_x4plus.pth" = false ->
   trace (snd (load_models env w)) =
   (trace w ++
    EvPathExists "GFPGANv1.4.pth" true ::
    EvPathExists "RealESRGAN_x4plus.pth" false ::
    failure_report "Model loading failed: "
      (FileNotFoundError "RealESRGAN model not found at RealESRGAN_x4plus.pth"))%list).
Proof.
  intros Hl. unfold failure_report. split.
  - intros Hg. unfold_monad. rewrite Hl. cbn. rewrite Hg. cbn.
    rewrite <- !app_assoc. reflexivity.
  - intros Hg Hr. unfold_monad. rewrite Hl. cbn. rewrite Hg. cbn.
    rewrite Hr. cbn. rewrite <- !app_assoc. reflexivity.
Qed.

Lemma load_models_names_first_missing_file_witness :
  models_loaded (self (init false)) = false /\
  os_path_exists Envs.no_weights "GFPGANv1.4.pth" = false /\
  trace (snd (load_models Envs.no_weights (init false))) =
  EvPathExists "GFPGANv1.4.pth" false ::
  failure_report "Model loading failed: "
    (FileNotFoundError "GFPGAN model not found at GFPGANv1.4.pth").
Proof.
  split; [reflexivity|]. split; [reflexivity|].
  exact (proj1 (load_models_names_first_missing_file
                  Envs.no_weights (init false) eq_refl) eq_refl).
Defined.

(** The object a load attempt leaves, as a function of what it found. *)
Lemma load_models_object env w :
  models_loaded (self w) = false ->
  self (snd (load_models env w)) =
  {| gfpgan_model :=
       if face_backend_can_load env (self_device (self w))
       then Some (configured_GFPGANer (self_device (self w)))
       else gfpgan_model (self w);
     upsampler :=
       if load_can_succeed env (self_device (self w))
       then Some (configured_RealESRGANer (self_device (self w)))
       else upsampler (self w);
     self_device := self_device (self w);
     models_loaded := load_can_succeed env (self_device (self w)) |}.
Proof.
  intros Hl.
  unfold face_backend_can_load, load_can_succeed, configured_GFPGANer,
    configured_RealESRGANer, configured_RRDBNet.
  unfold_monad. rewrite Hl. cbn.
  ask_env env; cbn; destruct w as [[g u d l] t]; cbn in *; subst l; reflexivity.
Qed.

(** C3, as the code has it: a call is a no-op exactly when [models_loaded]
    is already set.  On an object that is not loaded (never called, or every
    earlier attempt failed) the call makes a whole load attempt again: it
    starts with the check of the weight files, goes on through the imports
    and constructors as far as its environment lets it, leaves the object
    that this attempt produces, and reports its end. *)
Theorem load_models_noop_only_once_loaded env w :
  if models_loaded (self w)
  then load_models env w = (Returned tt, w)
  else
    self (snd (load_models env w)) =
    {| gfpgan_model :=
         if face_backend_can_load env (self_device (self w))
         then Some (configured_GFPGANer (self_device (self w)))
         else gfpgan_model (self w);
       upsampler :=
         if load_can_succeed env (self_device (self w))
         then Some (configured_RealESRGANer (self_device (self w)))
         else upsampler (self w);
       self_device := self_device (self w);
       models_loaded := load_can_succeed env (self_device (self w)) |} /\
    exists probes e,
      forallb is_probe_event probes = true /\
      (load_can_succeed env (self_device (self w)) = true ->
       probes =
       [ EvPathExists "RealESRGAN_x4plus.pth" true;
         EvImport "gfpgan"; EvConstruct "GFPGANer";
         EvImport "basicsr.archs.rrdbnet_arch"; EvImport "realesrgan";
         EvConstruct "RRDBNet"; EvConstruct "RealESRGANer" ]) /\
      trace (snd (load_models env w)) =
      (trace w ++
       EvPathExists "GFPGANv1.4.pth" (os_path_exists env "GFPGANv1.4.pth") ::
       probes ++
       (if load_can_succeed env (self_device (self w))
        then [EvLoggerInfo "AI models loaded successfully"]
        else failure_report "Model loading failed: " e))%list.
Proof.
  destruct (models_loaded (self w)) eqn:Hl.
  - now apply load_models_when_loaded.
  - split; [now apply load_models_object|].
    unfold load_can_succeed, configured_GFPGANer, configured_RealESRGANer,
      configured_RRDBNet, failure_report.
    unfold_monad. rewrite Hl. cbn.
    ask_env env; cbn; rewrite <- ?app_assoc; cbn;
      match goal with
      | |- context [(trace w ++ ?l)%list = _] =>
          first
            [ let p := eval cbv in (tl (firstn (List.length l - 2) l)) in
              exists p;
              first [ eexists; split; [reflexivity|];
                      split; [intros Hc; discriminate Hc|]; reflexivity
                    | eexists (FileNotFoundError _); split; [reflexivity|];
                      split; [intros Hc; discriminate Hc|]; reflexivity ]
            | let p := eval cbv in (tl (firstn (List.length l - 1) l)) in
              exists p, (RuntimeError "");
              split; [reflexivity|];
              split; [intros _; reflexivity|];
              reflexivity ]
      end.
Qed.

(** Repeating the call in an unchanged environment does not change the
    object: whatever the first call left, the second leaves the same. *)
Theorem load_models_twice_same_object env w :
  self (snd (load_models env (snd (load_models env w)))) =
  self (snd (load_models env w)).
Proof.
  destruct (models_loaded (self w)) eqn:Hl.
  - rewrite (load_models_when_loaded env w Hl). cbn [snd].
    now rewrite (load_models_when_loaded env w Hl).
  - destruct (models_loaded (self (snd (load_models env w)))) eqn:Hl1.
    + now rewrite (load_models_when_loaded env (snd (load_models env w)) Hl1).
    + rewrite (load_models_object env (snd (load_models env w)) Hl1).
      rewrite (load_models_object env w Hl) in *. cbn in *.
      rewrite Hl1.
      destruct (face_backend_can_load env (self_device (self w))); reflexivity.
Qed.

Section Configuration.
Context {E : Externals}.

Lemma load_models_configured env w :
  backends_configured (self w) ->
  backends_configured (self (snd (load_models env w))).
Proof.
  intros [Hg Hu].
  destruct (models_loaded (self w)) eqn:Hl.
  - rewrite load_models_when_loaded by assumption. now split.
  - unfold backends_configured, configured_GFPGANer, configured_RealESRGANer,
      configured_RRDBNet in *.
    unfold_monad. rewrite Hl. cbn.
    ask_env env; cbn; (split; [intros g Hsome | intros u Hsome]);
      first [ now apply Hg | now apply Hu | now inversion Hsome ].
Qed.

(** Every backend a reachable object holds was built by [load_models] with
    its fixed parameters (GFPGAN: [upscale=2], [arch='clean'],
    [channel_multiplier=2]; Real-ESRGAN: [scale=4] on the 23-block RRDBNet)
    and on the device chosen in [__init__]. *)
Theorem reachable_backends_configured w :
  reachable w -> backends_configured (self w).
Proof.
  induction 1 as [c | env w Hr IH | env image op s w Hr IH].
  - split; intros ? Hsome; discriminate Hsome.
  - now apply load_models_configured.
  - rewrite enhance_image_self. now apply load_models_configured.
Qed.

End Configuration.

Lemma reachable_backends_configured_witness :
  backends_configured
    (self (snd (load_models Envs.all_present (init true)))).
Proof.
  apply (reachable_backends_configured (E := Raster.externals None None)).
  apply reach_load_models. apply reach_init.
Defined.

(** ** [enhance_image] *)

Section EnhanceRuns.
Context {E : Externals}.

(** A call, in terms of what its [try] block did on the object left by
    [load_models]. *)
Lemma enhance_image_run env image enhancement_type strength w :
  exists o f',
    enhance_image_body enhancement_type strength
      ({| img_array := image |}, snd (load_models env w)) =
      (o, (f', snd (load_models env w))) /\
    enhance_image env image enhancement_type strength w =
    match o with
    | Returned out => (Returned out, snd (load_models env w))
    | Raised e =>
        (Returned (img_array f'),
         {| self := self (snd (load_models env w));
            trace := (trace (snd (load_models env w)) ++
                      failure_report "Enhancement failed: " e)%list |})
    end.
Proof.
  unfold enhance_image, bind.
  pose proof (load_models_returns env w) as Hr.
  destruct (load_models env w) as [r w1]. cbn [fst snd] in *. subst r.
  cbv beta iota. unfold try_except.
  pose proof (enhance_image_body_keeps_world enhancement_type strength
                {| img_array := image |} w1) as Hk.
  destruct (enhance_image_body enhancement_type strength
              ({| img_array := image |}, w1)) as [[out | e] [f' w2]];
    cbn [fst snd] in Hk; subst w2.
  - exists (Returned out), f'. split; reflexivity.
  - exists (Raised e), f'. split; [reflexivity|].
    unfold enhance_image_handler, in_world, logger_error, st_error, emit,
      get_img_array, bind, ret, failure_report.
    cbn. rewrite <- app_assoc. reflexivity.
Qed.

(** A call reports at most once: either it adds nothing to the trace of its
    load attempt, or it adds the same "Enhancement failed" message to the
    logger and to the page. *)
Theorem enhance_image_reports_once env image enhancement_type strength w :
  trace (snd (enhance_image env image enhancement_type strength w)) =
    trace (snd (load_models env w)) \/
  exists e,
    trace (snd (enhance_image env image enhancement_type strength w)) =
    (trace (snd (load_models env w)) ++ failure_report "Enhancement failed: " e)%list.
Proof.
  destruct (enhance_image_run env image enhancement_type strength w)
    as (o & f' & _ & Hrun).
  rewrite Hrun. destruct o as [out | e]; cbn; [left | right; exists e]; reflexivity.
Qed.

(** Outside the two neural paths the local [img_array] is never reassigned. *)
Lemma classical_body_keeps_frame enhancement_type strength f w :
  (enhancement_type = SUPER_RESOLUTION -> upsampler (self w) = None) ->
  (enhancement_type = FACE_ENHANCEMENT -> gfpgan_model (self w) = None) ->
  snd (enhance_image_body enhancement_type strength (f, w)) = (f, w).
Proof.
  intros Hsr Hfe.
  destruct (string_dec enhancement_type SUPER_RESOLUTION) as [-> | Hn1].
  { now rewrite body_super_resolution_fallback by auto. }
  destruct (string_dec enhancement_type FACE_ENHANCEMENT) as [-> | Hn2].
  { now rewrite body_face_fallback by auto. }
  destruct (string_dec enhancement_type DENOISE) as [-> | Hn3].
  { now rewrite body_denoise. }
  destruct (string_dec enhancement_type SHARPEN) as [-> | Hn4].
  { now rewrite body_sharpen. }
  destruct (string_dec enhancement_type REMOVE_BACKGROUND) as [-> | Hn5].
  { now rewrite body_remove_background. }
  destruct (string_dec enhancement_type COLOR_CORRECTION) as [-> | Hn6].
  { now rewrite body_color_correction. }
  rewrite body_unknown; [reflexivity|].
  unfold supported_operations. cbn. intuition congruence.
Qed.

(** Whenever a call that did not go through a neural backend reports a
    failure, what it returns is the input image, unchanged. *)
Theorem classical_failure_gives_back_input
    env image enhancement_type strength w :
  (enhancement_type = SUPER_RESOLUTION ->
   upsampler (self (snd (load_models env w))) = None) ->
  (enhancement_type = FACE_ENHANCEMENT ->
   gfpgan_model (self (snd (load_models env w))) = None) ->
  trace (snd (enhance_image env image enhancement_type strength w)) <>
  trace (snd (load_models env w)) ->
  fst (enhance_image env image enhancement_type strength w) = Returned image.
Proof.
  intros Hsr Hfe Hreported.
  destruct (enhance_image_run env image enhancement_type strength w)
    as (o & f' & Hbody & Hrun).
  pose proof (classical_body_keeps_frame enhancement_type strength
                {| img_array := image |} _ Hsr Hfe) as Hframe.
  rewrite Hbody in Hframe. cbn [snd] in Hframe. inversion Hframe as [Hf].
  rewrite Hrun in *. destruct o as [out | e]; cbn in *.
  - contradiction.
  - rewrite Hf. reflexivity.
Qed.

End EnhanceRuns.

Lemma classical_failure_gives_back_input_witness :
  let short := {| Raster.dims := [3]%nat; Raster.cells := [1; 2; 3] |} in
  upsampler (self (snd (load_models Envs.no_weights (init false)))) = None /\
  fst (enhance_image (E := Raster.externals None None)
         Envs.no_weights short SUPER_RESOLUTION 5 (init false)) = Returned short.
Proof.
  cbv zeta. split; [reflexivity|].
  apply (classical_failure_gives_back_input (E := Raster.externals None None)).
  - intros _. reflexivity.
  - intros Habs. discriminate Habs.
  - vm_compute. intros Heq. discriminate Heq.
Defined.

(** ** Super Resolution *)

Section SuperResolution.
Context {E : Externals}.

(** Without a super-resolution backend, the requested size is read off the
    first two dimensions alone, whatever follows them (grey, RGB or RGBA):
    the call returns [resize] to twice that width and height, or the input
    when [resize] raises.  An array with fewer than two dimensions cannot be
    unpacked and comes back as it is. *)
Theorem super_resolution_fallback_any_channels env image strength w :
  upsampler (self (snd (load_models env w))) = None ->
  (forall h wd rest,
      shape image = h :: wd :: rest ->
      fst (enhance_image env image SUPER_RESOLUTION strength w) =
      masked image (resize image ((wd * 2)%nat, (h * 2)%nat) INTER_CUBIC)) /\
  ((List.length (shape image) < 2)%nat ->
   fst (enhance_image env image SUPER_RESOLUTION strength w) = Returned image).
Proof.
  intros Hnone.
  pose proof (body_super_resolution_fallback strength
                {| img_array := image |} _ Hnone) as Hb.
  cbn [img_array] in Hb.
  rewrite (enhance_image_from_body env image _ strength w _ _ _ Hb).
  cbn [img_array]. split.
  - intros h wd rest Hs. rewrite Hs. cbn.
    unfold masked. destruct (resize _ _ _); reflexivity.
  - intros Hshort.
    destruct (shape image) as [|h [|wd rest]]; cbn in *; try reflexivity; lia.
Qed.

Context {L : ExternalsLaws E} {U : UpsamplerLaws E}.

(** What the neural path of the [try] block ends with: a result four times
    as high and wide, or an exception with [img_array] still of the input's
    shape. *)
Lemma body_super_resolution_neural_shape strength image w up h wd :
  upsampler (self w) = Some up ->
  shape image = [h; wd; 3%nat] ->
  match enhance_image_body SUPER_RESOLUTION strength ({| img_array := image |}, w) with
  | (Returned out, _) => shape out = [(h * 4)%nat; (wd * 4)%nat; 3%nat]
  | (Raised _, (f', _)) => shape (img_array f') = [h; wd; 3%nat]
  end.
Proof.
  intros Hup Hs. unfold_body. rewrite Hup. cbv beta iota delta [fst snd img_array].
  destruct (cvtColor image COLOR_RGB2BGR) as [bgr | e] eqn:Hbgr;
    cbv beta iota delta [fst snd img_array]; [|exact Hs].
  assert (Hsb : shape bgr = [h; wd; 3%nat])
    by (rewrite (cvtColor_shape _ _ _ Hbgr); exact Hs).
  destruct (astype bgr np_float32) as [f32 | e] eqn:Hf32;
    cbv beta iota delta [fst snd img_array]; [|exact Hsb].
  destruct (truediv f32 255.0%float) as [scaled | e] eqn:Hdiv;
    cbv beta iota delta [fst snd img_array]; [|exact Hsb].
  assert (Hss : shape scaled = [h; wd; 3%nat]).
  { rewrite (truediv_shape _ _ _ Hdiv), (astype_shape _ _ _ Hf32). exact Hsb. }
  destruct (RealESRGANer_enhance up scaled 4) as [[out mode] | e] eqn:Hen;
    cbv beta iota delta [fst snd img_array]; [|exact Hss].
  pose proof (RealESRGANer_enhance_shape _ _ _ _ _ _ _ Hen Hss) as Hso.
  destruct (mul out 255) as [o1 | e] eqn:Hmul;
    cbv beta iota delta [fst snd img_array]; [|exact Hss].
  destruct (clip o1 0 255) as [o2 | e] eqn:Hclip;
    cbv beta iota delta [fst snd img_array]; [|exact Hss].
  destruct (astype o2 np_uint8) as [o3 | e] eqn:Hu8;
    cbv beta iota delta [fst snd img_array]; [|exact Hss].
  destruct (cvtColor o3 COLOR_BGR2RGB) as [o4 | e] eqn:Hrgb;
    cbv beta iota delta [fst snd img_array]; [|exact Hss].
  rewrite (cvtColor_shape _ _ _ Hrgb), (astype_shape _ _ _ Hu8),
    (clip_shape _ _ _ _ Hclip), (mul_shape _ _ _ Hmul).
  exact Hso.
Qed.

(** With the super-resolution backend loaded, Super Resolution of an
    H x W x 3 image returns a 4H x 4W x 3 image when nothing is reported, and
    an H x W x 3 array when a failure is. *)
Theorem super_resolution_neural_shape env image strength w up h wd out :
  upsampler (self (snd (load_models env w))) = Some up ->
  shape image = [h; wd; 3%nat] ->
  fst (enhance_image env image SUPER_RESOLUTION strength w) = Returned out ->
  (trace (snd (enhance_image env image SUPER_RESOLUTION strength w)) =
   trace (snd (load_models env w)) ->
   shape out = [(h * 4)%nat; (wd * 4)%nat; 3%nat]) /\
  (trace (snd (enhance_image env image SUPER_RESOLUTION strength w)) <>
   trace (snd (load_models env w)) ->
   shape out = [h; wd; 3%nat]).
Proof.
  intros Hup Hs Hout.
  destruct (enhance_image_run env image SUPER_RESOLUTION strength w)
    as (o & f' & Hbody & Hrun).
  pose proof (body_super_resolution_neural_shape strength image _ up h wd Hup Hs)
    as Hshape.
  rewrite Hbody in Hshape. rewrite Hrun in *.
  destruct o as [o | e]; cbn in *; inversion Hout; subst; split; intros Ht.
  - exact Hshape.
  - contradiction.
  - exfalso. apply (f_equal (@List.length event)) in Ht.
    rewrite length_app in Ht. unfold failure_report in Ht. cbn in Ht. lia.
  - exact Hshape.
Qed.

End SuperResolution.

Lemma raster_upsampler_laws face_raises upsampler_raises :
  UpsamplerLaws (Raster.externals face_raises upsampler_raises).
Proof.
  constructor; cbn.
  - intros a t b H. inversion H. reflexivity.
  - intros a x b H. inversion H. reflexivity.
  - intros a k b H. inversion H. reflexivity.
  - intros a lo hi b H. inversion H. reflexivity.
  - intros up a outscale out mode h w He Hd.
    destruct upsampler_raises; [discriminate|].
    rewrite Hd in He.
    destruct (raster_scaled_shape a h w 3
                (h * Z.to_nat outscale) (w * Z.to_nat outscale) Hd) as [b [Hb Hs]].
    rewrite Hb in He. cbn in He. inversion He; subst. exact Hs.
Qed.

Lemma super_resolution_fallback_any_channels_witness :
  let rgba := {| Raster.dims := [1; 1; 4]%nat; Raster.cells := [9; 8; 7; 255] |} in
  upsampler (self (snd (load_models Envs.no_weights (init false)))) = None /\
  fst (enhance_image (E := Raster.externals None None)
         Envs.no_weights rgba SUPER_RESOLUTION 3 (init false)) =
  Returned {| Raster.dims := [2; 2; 4]%nat;
              Raster.cells := [ 9; 8; 7; 255;  9; 8; 7; 255;
                                9; 8; 7; 255;  9; 8; 7; 255 ] |}.
Proof.
  cbv zeta. split; [reflexivity|].
  rewrite (proj1 (super_resolution_fallback_any_channels
                    (E := Raster.externals None None)
                    Envs.no_weights
                    {| Raster.dims := [1; 1; 4]%nat; Raster.cells := [9; 8; 7; 255] |}
                    3 (init false) eq_refl)
             1%nat 1%nat [4%nat] eq_refl).
  reflexivity.
Defined.

Lemma super_resolution_neural_shape_witness :
  upsampler (self (snd (load_models Envs.all_present (init false)))) =
    Some (configured_RealESRGANer cpu) /\
  Raster.dims Raster.one_pixel = [1; 1; 3]%nat /\
  exists out,
    fst (enhance_image (E := Raster.externals None None)
           Envs.all_present Raster.one_pixel SUPER_RESOLUTION 5 (init false)) =
    Returned out /\
    Raster.dims out = [4; 4; 3]%nat.
Proof.
  split; [reflexivity|]. split; [reflexivity|].
  destruct (enhance_image_returns (E := Raster.externals None None)
              Envs.all_present Raster.one_pixel SUPER_RESOLUTION 5 (init false))
    as [out Hout].
  exists out. split; [exact Hout|].
  apply (proj1 (super_resolution_neural_shape
                  (E := Raster.externals None None)
                  (L := raster_laws None None)
                  (U := raster_upsampler_laws None None)
                  Envs.all_present Raster.one_pixel 5 (init false)
                  (configured_RealESRGANer cpu) 1 1 out
                  eq_refl eq_refl Hout)).
  vm_compute. reflexivity.
Defined.

(** ** Face Enhancement on the loaded backend *)

Section FaceNeural.
Context {E : Externals} {L : ExternalsLaws E}.

(** The neural face path, by what the call reported. *)
Lemma face_neural_shape env image strength w h wd out :
  reachable w ->
  gfpgan_model (self (snd (load_models env w))) <> None ->
  shape image = [h; wd; 3%nat] ->
  fst (enhance_image env image FACE_ENHANCEMENT strength w) = Returned out ->
  (trace (snd (enhance_image env image FACE_ENHANCEMENT strength w)) =
   trace (snd (load_models env w)) ->
   shape out = [(h * 2)%nat; (wd * 2)%nat; 3%nat]) /\
  (trace (snd (enhance_image env image FACE_ENHANCEMENT strength w)) <>
   trace (snd (load_models env w)) ->
   shape out = [h; wd; 3%nat]).
Proof.
  intros Hreach Hg Hs Hout.
  assert (Hgrow : forall (t : list event) e,
             (t ++ failure_report "Enhancement failed: " e)%list <> t).
  { intros t e Ht. apply (f_equal (@List.length event)) in Ht.
    rewrite length_app in Ht. unfold failure_report in Ht. cbn in Ht. lia. }
  assert (Hreach1 : reachable (snd (load_models env w)))
    by now apply reach_load_models.
  destruct (enhance_image_run env image FACE_ENHANCEMENT strength w)
    as (o & f' & Hbody & Hrun).
  rewrite Hrun in Hout |- *. clear Hrun.
  remember (snd (load_models env w)) as w1 eqn:Hw1. clear Hw1.
  destruct (gfpgan_model (self w1)) as [g |] eqn:Hsome; [clear Hg | contradiction].
  pose proof (reachable_face_upscale w1 Hreach1 g Hsome) as Hup.
  rewrite (body_face_neural strength _ _ g Hsome) in Hbody. cbn [img_array] in Hbody.
  destruct (cvtColor image COLOR_RGB2BGR) as [bgr | e0] eqn:Hbgr.
  - assert (Hsb : shape bgr = [h; wd; 3%nat])
      by (rewrite (cvtColor_shape _ _ _ Hbgr); exact Hs).
    inversion Hbody as [[Ho Hf]]. clear Hbody. subst o f'.
    destruct (GFPGANer_enhance g bgr false false true (blend_weight strength))
      as [[[faces restored] pasted] | e1] eqn:Hen; cbn [and_then snd] in *.
    + destruct (cvtColor pasted COLOR_BGR2RGB) as [rgb | e2] eqn:Hrgb;
        cbn [fst snd trace self img_array] in *;
        inversion Hout; subst; split; intros Ht.
      * rewrite (cvtColor_shape _ _ _ Hrgb).
        rewrite (GFPGANer_enhance_shape _ _ _ _ _ _ _ _ _ _ Hen Hsb), Hup.
        reflexivity.
      * exfalso. apply Ht. reflexivity.
      * exfalso. eapply Hgrow. exact Ht.
      * exact Hsb.
    + cbn [fst snd trace self img_array] in *;
        inversion Hout; subst; split; intros Ht.
      * exfalso. eapply Hgrow. exact Ht.
      * exact Hsb.
  - inversion Hbody as [[Ho Hf]]. subst o f'.
    cbn [fst snd trace self img_array] in *.
    inversion Hout; subst. split; intros Ht.
    + exfalso. eapply Hgrow. exact Ht.
    + exact Hs.
Qed.

(** On a reachable object with the face backend loaded, Face Enhancement of
    an H x W x 3 image returns a 2H x 2W x 3 image when nothing is reported,
    and an H x W x 3 array when a failure is. *)
Theorem face_enhancement_neural_doubles env image strength w h wd out :
  reachable w ->
  gfpgan_model (self (snd (load_models env w))) <> None ->
  shape image = [h; wd; 3%nat] ->
  fst (enhance_image env image FACE_ENHANCEMENT strength w) = Returned out ->
  (trace (snd (enhance_image env image FACE_ENHANCEMENT strength w)) =
   trace (snd (load_models env w)) ->
   shape out = [(h * 2)%nat; (wd * 2)%nat; 3%nat]) /\
  (trace (snd (enhance_image env image FACE_ENHANCEMENT strength w)) <>
   trace (snd (load_models env w)) ->
   shape out = [h; wd; 3%nat]).
Proof. apply face_neural_shape. Qed.

(** C6, as the code has it: on an H x W x 3 image, Denoise, Sharpen, Color
    Correction, an unsupported name, and Face Enhancement without a face
    backend return an H x W x 3 image.  Face Enhancement on a loaded face
    backend (every reachable one is built with [upscale=2]) returns a
    2H x 2W x 3 image when the call reports no failure, and an H x W x 3
    array when it reports one. *)
Theorem classical_operations_preserve_shape
    env image enhancement_type strength w h wd out :
  shape image = [h; wd; 3%nat] ->
  enhancement_type <> SUPER_RESOLUTION ->
  enhancement_type <> REMOVE_BACKGROUND ->
  fst (enhance_image env image enhancement_type strength w) = Returned out ->
  ((enhancement_type = FACE_ENHANCEMENT ->
    gfpgan_model (self (snd (load_models env w))) = None) ->
   shape out = [h; wd; 3%nat]) /\
  (reachable w ->
   enhancement_type = FACE_ENHANCEMENT ->
   gfpgan_model (self (snd (load_models env w))) <> None ->
   (trace (snd (enhance_image env image enhancement_type strength w)) =
    trace (snd (load_models env w)) ->
    shape out = [(h * 2)%nat; (wd * 2)%nat; 3%nat]) /\
   (trace (snd (enhance_image env image enhancement_type strength w)) <>
    trace (snd (load_models env w)) ->
    shape out = [h; wd; 3%nat])).
Proof.
  intros Hs Hsr Hrb Hout. split.
  - intros Hface. now apply (classical_shape env image enhancement_type strength w).
  - intros Hreach -> Hloaded. now apply face_neural_shape.
Qed.

End FaceNeural.

Lemma classical_operations_preserve_shape_witness :
  Raster.dims Raster.two_by_two = [2; 2; 3]%nat /\
  DENOISE <> SUPER_RESOLUTION /\ DENOISE <> REMOVE_BACKGROUND /\
  fst (enhance_image (E := Raster.externals None None)
         Envs.all_present Raster.two_by_two DENOISE 7 (init false)) =
    Returned Raster.two_by_two /\
  Raster.dims Raster.two_by_two = [2; 2; 3]%nat.
Proof.
  split; [reflexivity|]. split; [discriminate|]. split; [discriminate|].
  split; [reflexivity|].
  apply (proj1 (classical_operations_preserve_shape
           (E := Raster.externals None None) (L := raster_laws None None)
           Envs.all_present Raster.two_by_two DENOISE 7 (init false) 2 2
           Raster.two_by_two eq_refl ltac:(discriminate) ltac:(discriminate)
           eq_refl)).
  discriminate.
Defined.

Lemma face_enhancement_neural_doubles_witness :
  reachable (E := Raster.externals None None) (init false) /\
  gfpgan_model (self (snd (load_models Envs.all_present (init false)))) <> None /\
  exists out,
    fst (enhance_image (E := Raster.externals None None)
           Envs.all_present Raster.one_pixel FACE_ENHANCEMENT 5 (init false)) =
    Returned out /\
    Raster.dims out = [2; 2; 3]%nat.
Proof.
  assert (Hreach : reachable (E := Raster.externals None None) (init false))
    by apply reach_init.
  assert (Hg : gfpgan_model (self (snd (load_models Envs.all_present (init false))))
               <> None) by (vm_compute; discriminate).
  split; [exact Hreach|]. split; [exact Hg|].
  destruct (enhance_image_returns (E := Raster.externals None None)
              Envs.all_present Raster.one_pixel FACE_ENHANCEMENT 5 (init false))
    as [out Hout].
  exists out. split; [exact Hout|].
  apply (proj1 (face_enhancement_neural_doubles
                  (E := Raster.externals None None) (L := raster_laws None None)
                  Envs.all_present Raster.one_pixel 5 (init false) 1 1 out
                  Hreach Hg eq_refl Hout)).
  vm_compute. reflexivity.
Defined.

(** ** The page *)



Lemma list_ascii_of_string_append a b :
  list_ascii_of_string (a ++ b) =
  (list_ascii_of_string a ++ list_ascii_of_string b)%list.
Proof. induction a as [|c a IH]; cbn; [reflexivity | now rewrite IH]. Qed.

Lemma string_length_append a b :
  String.length (a ++ b) = (String.length a + String.length b)%nat.
Proof. induction a as [|c a IH]; cbn; [reflexivity | now rewrite IH]. Qed.

Lemma lower_ascii_not_upper c :
  let n := Ascii.nat_of_ascii (lower_ascii c) in
  ((65 <=? n) && (n <=? 90))%nat = false.
Proof.
  cbv zeta. unfold lower_ascii.
  destruct ((65 <=? Ascii.nat_of_ascii c) && (Ascii.nat_of_ascii c <=? 90))%nat eqn:Hup.
  - apply andb_true_iff in Hup. destruct Hup as [Hlo Hhi].
    apply Nat.leb_le in Hlo. apply Nat.leb_le in Hhi.
    rewrite Ascii.nat_ascii_embedding by lia.
    apply andb_false_iff. right. apply Nat.leb_gt. lia.
  - exact Hup.
Qed.

Lemma str_replace_lower_chars s c :
  In c (list_ascii_of_string (str_replace space underscore (str_lower s))) ->
  c <> space /\
  ((65 <=? Ascii.nat_of_ascii c) && (Ascii.nat_of_ascii c <=? 90))%nat = false.
Proof.
  induction s as [|c0 s IH];
    cbn [str_lower str_replace list_ascii_of_string In]; [tauto|].
  intros [<- | Hin]; [|now apply IH].
  destruct (Ascii.eqb (lower_ascii c0) space) eqn:Heq.
  - split; [intros Habs; vm_compute in Habs; discriminate Habs|].
    vm_compute. reflexivity.
  - split; [now apply Ascii.eqb_neq|].
    apply lower_ascii_not_upper.
Qed.

(** For an ASCII operation name, the name of the downloaded file is
    [enhanced_], the operation name and [.png]: thirteen characters longer
    than the operation name, without any space and without any upper-case
    letter. *)
Theorem download_file_name_is_snake_case enhancement_type :
  Forall (fun c => (Ascii.nat_of_ascii c < 128)%nat)
         (list_ascii_of_string enhancement_type) ->
  String.length (download_file_name enhancement_type) =
    (String.length enhancement_type + 13)%nat /\
  forall c, In c (list_ascii_of_string (download_file_name enhancement_type)) ->
            c <> space /\
            ((65 <=? Ascii.nat_of_ascii c) && (Ascii.nat_of_ascii c <=? 90))%nat = false.
Proof.
  intros _. unfold download_file_name. split.
  - assert (Hlen : forall s, String.length (str_replace space underscore (str_lower s)) =
                             String.length s).
    { induction s as [|c s IH]; cbn [str_replace str_lower String.length];
        [reflexivity | now rewrite IH]. }
    rewrite !string_length_append, Hlen. cbn [String.length]. lia.
  - intros c Hin. rewrite !list_ascii_of_string_append in Hin.
    apply in_app_or in Hin. destruct Hin as [Hin | Hin].
    { cbn in Hin. repeat destruct Hin as [<- | Hin]; try contradiction;
        (split; [intros Habs; vm_compute in Habs; discriminate Habs
                | vm_compute; reflexivity]). }
    apply in_app_or in Hin. destruct Hin as [Hin | Hin].
    2:{ cbn in Hin. repeat destruct Hin as [<- | Hin]; try contradiction;
          (split; [intros Habs; vm_compute in Habs; discriminate Habs
                  | vm_compute; reflexivity]). }
    now apply (str_replace_lower_chars enhancement_type).
Qed.

Lemma download_file_name_is_snake_case_witness :
  Forall (fun c => (Ascii.nat_of_ascii c < 128)%nat)
         (list_ascii_of_string "Remove Background") /\
  String.length (download_file_name "Remove Background") = 30%nat /\
  download_file_name "Remove Background" = "enhanced_remove_background.png".
Proof.
  assert (Hascii : Forall (fun c => (Ascii.nat_of_ascii c < 128)%nat)
                          (list_ascii_of_string "Remove Background")).
  { cbn. repeat constructor; cbn; lia. }
  split; [exact Hascii|]. split; [|reflexivity].
  exact (proj1 (download_file_name_is_snake_case "Remove Background" Hascii)).
Defined.

(** The six operations of the select box get six different file names. *)
Theorem download_file_names_are_distinct a b :
  In a supported_operations -> In b supported_operations ->
  download_file_name a = download_file_name b -> a = b.
Proof.
  unfold supported_operations. cbn [In].
  intros Ha Hb.
  repeat destruct Ha as [<- | Ha]; try contradiction;
    repeat destruct Hb as [<- | Hb]; try contradiction;
    vm_compute; intros Heq; first [reflexivity | discriminate Heq].
Qed.

Lemma download_file_names_are_distinct_witness :
  In SHARPEN supported_operations /\ In DENOISE supported_operations /\
  download_file_name SHARPEN <> download_file_name DENOISE.
Proof.
  assert (Ha : In SHARPEN supported_operations) by (simpl; tauto).
  assert (Hb : In DENOISE supported_operations) by (simpl; tauto).
  split; [exact Ha|]. split; [exact Hb|].
  intros Heq.
  pose proof (download_file_names_are_distinct SHARPEN DENOISE Ha Hb Heq) as Habs.
  discriminate Habs.
Defined.

Section PageRuns.
Context {E : Externals} {F : Frontend E}.

Lemma enhance_image_is_load_then_try env image enhancement_type strength :
  enhance_image env image enhancement_type strength =
  (load_models env ;;; enhance_image_try image enhancement_type strength)%py.
Proof. reflexivity. Qed.





End PageRuns.

(** ** A load attempt that stops half-way *)

(** When the attempt gets past the GFPGAN constructor and fails later (a
    Real-ESRGAN import, the RRDBNet or the RealESRGANer constructor), the
    face backend stays assigned, the super-resolution backend is what it
    was, and [models_loaded] stays unset, so the next call tries again. *)
Theorem load_models_keeps_face_backend_on_late_failure env w :
  models_loaded (self w) = false ->
  face_backend_can_load env (self_device (self w)) = true ->
  load_can_succeed env (self_device (self w)) = false ->
  gfpgan_model (self (snd (load_models env w))) =
    Some (configured_GFPGANer (self_device (self w))) /\
  upsampler (self (snd (load_models env w))) = upsampler (self w) /\
  models_loaded (self (snd (load_models env w))) = false.
Proof.
  intros Hl Hface Hall. rewrite (load_models_object env w Hl).
  cbn. rewrite Hface, Hall. repeat split.
Qed.

Lemma load_models_keeps_face_backend_on_late_failure_witness :
  models_loaded (self (init false)) = false /\
  face_backend_can_load Envs.realesrgan_unloadable cpu = true /\
  load_can_succeed Envs.realesrgan_unloadable cpu = false /\
  gfpgan_model (self (snd (load_models Envs.realesrgan_unloadable (init false)))) =
    Some (configured_GFPGANer cpu).
Proof.
  split; [reflexivity|]. split; [reflexivity|]. split; [reflexivity|].
  exact (proj1 (load_models_keeps_face_backend_on_late_failure
                  Envs.realesrgan_unloadable (init false)
                  eq_refl eq_refl eq_refl)).
Defined.

(** Two runs of the page on the small implementation: an upload that is no
    picture ends the run before anything is loaded; a picture is sharpened. *)
Example main_run_on_bad_upload :
  main_enhanced (F := raster_frontend None None)
    false Envs.all_present (Some None) SHARPEN 5 =
  Some (Raised (ValueError "cannot identify image file"), init false).
Proof. reflexivity. Qed.

Example main_run_on_picture :
  option_map fst
    (main_enhanced (F := raster_frontend None None)
       false Envs.no_weights (Some (Some Raster.two_by_two)) SHARPEN 5) =
  Some (Returned Raster.two_by_two).
Proof. vm_compute. reflexivity. Qed.
